(** * Cadmus: microphone noise-suppression toggle

    A shallow embedding of [src/main/python/main.py] and the properties of
    its module-graph orchestration, device enumeration and plugin
    distribution.

    The embedding covers the backend ([CadmusBackendApp]), the audio-server
    interface ([CadmusPulseInterface]) and the command line
    ([CadmusApplicationCli]); the Qt tray classes are presentation only and
    are left out.

    The program is imperative Python that talks to three pieces of its
    environment: a PulseAudio server (through [pulsectl]), the file system
    (through [os] and [shutil]) and the process's standard output.  All of
    them live in one [World] value that every operation threads through; a
    Python exception is an [Outcome] next to the world it left behind, so
    the effects performed before a [raise] stay visible. *)

From Stdlib Require Import ZArith Lia Ascii String.
From stdpp Require Import base option list strings pretty gmap.

Local Open Scope string_scope.
Local Open Scope list_scope.

(** ** Python values and exceptions *)

(** The two attributes of a [pulsectl.PulseSourceInfo] that the program
    reads. *)
Record PulseSourceInfo := {
  name : string;
  description : string;
}.

#[global] Instance PulseSourceInfo_eq_dec : EqDecision PulseSourceInfo.
Proof. solve_decision. Defined.

(** References to Python objects.  List objects, source-info objects and
    [CadmusBackendApp] instances are kept in three stores; a reference is an
    index into its store. *)
Abbreviation list_ref := nat (only parsing).
Abbreviation src_ref := nat (only parsing).
Abbreviation app_ref := nat (only parsing).

(** The part of fbs's [ApplicationContext] the program uses: the directory
    its bundled resources are in. *)
Record ApplicationContext := {
  resource_dir : string;
}.

(** The instance attributes of a [CadmusBackendApp]. *)
Record CadmusBackendApp_obj := {
  audio_sources : list_ref;
  cadmus_lib_path : string;
  app_context : ApplicationContext;
}.

Inductive PyException :=
| Exception (msg : string)          (* [raise Exception(...)] in the program *)
| PulseError (module_name : string) (* pulsectl: the server refused a call   *)
| KeyError (key : string)           (* [os.environ[...]] on a missing key    *)
| FileNotFoundError (path : string)
| FileExistsError (path : string)
| NotADirectoryError (path : string)
| IsADirectoryError (path : string)
| SameFileError (path : string)
| AttributeError (attr : string)
| SystemExit (code : Z)             (* argparse: usage error or help         *)
| SystemError (what : string).      (* a reference to no object; unreachable *)

#[global] Instance PyException_eq_dec : EqDecision PyException.
Proof. solve_decision. Defined.

Inductive Outcome (A : Type) :=
| Returned (a : A)
| Raised (e : PyException).
Arguments Returned {A} a.
Arguments Raised {A} e.

(** ** The world *)

(** What the program asks of the audio server, in the order it asks. *)
Inductive ServerCall :=
| SourceList                        (* [pulse.source_list()]                 *)
| ModuleLoad (module_name args : string) (* [pulse.module_load(name, args)]  *)
| CliConnect                        (* [pulsectl.connect_to_cli()]           *)
| CliWrite (data : string)          (* [s.write(data)] on the CLI socket     *)
| CliClose.                         (* leaving [contextlib.closing]          *)

#[global] Instance ServerCall_eq_dec : EqDecision ServerCall.
Proof. solve_decision. Defined.

(** A module loaded in the server: its type name and its argument string. *)
Abbreviation LoadedModule := (string * string)%type (only parsing).

Record World := {
  (* the Python heap *)
  py_lists : list (list src_ref);
  py_sources : list PulseSourceInfo;
  py_apps : list CadmusBackendApp_obj;
  (* the audio server *)
  srv_sources : list PulseSourceInfo;
  srv_modules : list LoadedModule;
  srv_accepts : list LoadedModule → string → string → bool;
  srv_log : list ServerCall;
  (* the operating system *)
  environ : gmap string string;
  fs_dirs : gset string;
  fs_files : gmap string string;
  (* standard output, one entry per [print] *)
  stdout : list string;
}.

Definition set_py_lists (v : list (list src_ref)) (w : World) : World :=
  {| py_lists := v; py_sources := py_sources w;
     py_apps := py_apps w;
     srv_sources := srv_sources w; srv_modules := srv_modules w;
     srv_accepts := srv_accepts w; srv_log := srv_log w;
     environ := environ w; fs_dirs := fs_dirs w; fs_files := fs_files w;
     stdout := stdout w |}.

Definition set_py_sources (v : list PulseSourceInfo) (w : World) : World :=
  {| py_lists := py_lists w; py_sources := v;
     py_apps := py_apps w;
     srv_sources := srv_sources w; srv_modules := srv_modules w;
     srv_accepts := srv_accepts w; srv_log := srv_log w;
     environ := environ w; fs_dirs := fs_dirs w; fs_files := fs_files w;
     stdout := stdout w |}.

Definition set_py_apps (v : list CadmusBackendApp_obj) (w : World) : World :=
  {| py_lists := py_lists w; py_sources := py_sources w;
     py_apps := v;
     srv_sources := srv_sources w; srv_modules := srv_modules w;
     srv_accepts := srv_accepts w; srv_log := srv_log w;
     environ := environ w; fs_dirs := fs_dirs w; fs_files := fs_files w;
     stdout := stdout w |}.

Definition set_srv_sources (v : list PulseSourceInfo) (w : World) : World :=
  {| py_lists := py_lists w; py_sources := py_sources w;
     py_apps := py_apps w;
     srv_sources := v; srv_modules := srv_modules w;
     srv_accepts := srv_accepts w; srv_log := srv_log w;
     environ := environ w; fs_dirs := fs_dirs w; fs_files := fs_files w;
     stdout := stdout w |}.

Definition set_srv_modules (v : list LoadedModule) (w : World) : World :=
  {| py_lists := py_lists w; py_sources := py_sources w;
     py_apps := py_apps w;
     srv_sources := srv_sources w; srv_modules := v;
     srv_accepts := srv_accepts w; srv_log := srv_log w;
     environ := environ w; fs_dirs := fs_dirs w; fs_files := fs_files w;
     stdout := stdout w |}.

Definition set_srv_log (v : list ServerCall) (w : World) : World :=
  {| py_lists := py_lists w; py_sources := py_sources w;
     py_apps := py_apps w;
     srv_sources := srv_sources w; srv_modules := srv_modules w;
     srv_accepts := srv_accepts w; srv_log := v;
     environ := environ w; fs_dirs := fs_dirs w; fs_files := fs_files w;
     stdout := stdout w |}.

Definition set_fs_dirs (v : gset string) (w : World) : World :=
  {| py_lists := py_lists w; py_sources := py_sources w;
     py_apps := py_apps w;
     srv_sources := srv_sources w; srv_modules := srv_modules w;
     srv_accepts := srv_accepts w; srv_log := srv_log w;
     environ := environ w; fs_dirs := v; fs_files := fs_files w;
     stdout := stdout w |}.

Definition set_fs_files (v : gmap string string) (w : World) : World :=
  {| py_lists := py_lists w; py_sources := py_sources w;
     py_apps := py_apps w;
     srv_sources := srv_sources w; srv_modules := srv_modules w;
     srv_accepts := srv_accepts w; srv_log := srv_log w;
     environ := environ w; fs_dirs := fs_dirs w; fs_files := v;
     stdout := stdout w |}.

Definition set_stdout (v : list string) (w : World) : World :=
  {| py_lists := py_lists w; py_sources := py_sources w;
     py_apps := py_apps w;
     srv_sources := srv_sources w; srv_modules := srv_modules w;
     srv_accepts := srv_accepts w; srv_log := srv_log w;
     environ := environ w; fs_dirs := fs_dirs w; fs_files := fs_files w;
     stdout := v |}.

(** ** The monad of Python statements *)

Definition Py (A : Type) : Type := World → Outcome A * World.

Definition ret {A} (a : A) : Py A := λ w, (Returned a, w).

Definition raise {A} (e : PyException) : Py A := λ w, (Raised e, w).

Definition bind {A B} (m : Py A) (k : A → Py B) : Py B :=
  λ w, match m w with
       | (Returned a, w') => k a w'
       | (Raised e, w') => (Raised e, w')
       end.

Notation "x <- m ;; k" := (bind m (λ x, k))
  (at level 100, m at next level, right associativity,
   format "'[v' x  <-  m  ;;  '/' k ']'").
Notation "m ;;; k" := (bind m (λ _, k))
  (at level 100, right associativity,
   format "'[v' m  ;;;  '/' k ']'").

(** [for x in xs: body(x)] over a list that the body does not mutate. *)
Fixpoint for_each {A} (xs : list A) (body : A → Py unit) : Py unit :=
  match xs with
  | [] => ret tt
  | x :: xs' => body x ;;; for_each xs' body
  end.

Definition modify (f : World → World) : Py unit := λ w, (Returned tt, f w).

Definition gets {A} (f : World → A) : Py A := λ w, (Returned (f w), w).

(** ** Python lists and objects on the heap *)

Definition new_list (items : list src_ref) : Py list_ref :=
  λ w, (Returned (length (py_lists w)),
        set_py_lists (py_lists w ++ [items]) w).

Definition list_items (l : list_ref) : Py (list src_ref) :=
  λ w, match py_lists w !! l with
       | Some xs => (Returned xs, w)
       | None => (Raised (SystemError "list"), w)
       end.

(** [len(l)] *)
Definition list_len (l : list_ref) : Py nat :=
  xs <- list_items l ;; ret (length xs).

(** [l.append(x)]: the list object is updated in place. *)
Definition list_append (l : list_ref) (x : src_ref) : Py unit :=
  xs <- list_items l ;;
  modify (λ w, set_py_lists (<[l := xs ++ [x]]> (py_lists w)) w).

(** [l.copy()]: a new list object holding the same element references. *)
Definition list_copy (l : list_ref) : Py list_ref :=
  xs <- list_items l ;; new_list xs.

Definition get_source (r : src_ref) : Py PulseSourceInfo :=
  λ w, match py_sources w !! r with
       | Some s => (Returned s, w)
       | None => (Raised (SystemError "source"), w)
       end.

(** [[src.name for src in l]]; the resulting list of strings is a
    temporary that nothing else refers to. *)
Fixpoint names_of (refs : list src_ref) : Py (list string) :=
  match refs with
  | [] => ret []
  | r :: rs => s <- get_source r ;; ns <- names_of rs ;; ret (name s :: ns)
  end.

(** Reading the attributes of [self]. *)
Definition get_app (self : app_ref) : Py CadmusBackendApp_obj :=
  λ w, match py_apps w !! self with
       | Some o => (Returned o, w)
       | None => (Raised (SystemError "self"), w)
       end.

Definition new_app (o : CadmusBackendApp_obj) : Py app_ref :=
  λ w, (Returned (length (py_apps w)), set_py_apps (py_apps w ++ [o]) w).

(** [self.cadmus_lib_path = v] *)
Definition set_cadmus_lib_path (self : app_ref) (v : string) : Py unit :=
  o <- get_app self ;;
  modify (λ w, set_py_apps
                 (<[self := {| audio_sources := audio_sources o;
                               cadmus_lib_path := v;
                               app_context := app_context o |}]> (py_apps w)) w).

(** ** pulsectl *)

Definition log_call (c : ServerCall) : Py unit :=
  modify (λ w, set_srv_log (srv_log w ++ [c]) w).

(** [pulse.source_list()]: asks the server and builds one new
    [PulseSourceInfo] object per device and a new list holding them.  The
    connection [pulse] was opened when the module was imported and is taken
    to be up: the query itself does not fail. *)
Definition pulse_source_list : Py list_ref :=
  log_call SourceList ;;;
  devs <- gets srv_sources ;;
  base <- gets (λ w, length (py_sources w)) ;;
  modify (λ w, set_py_sources (py_sources w ++ devs) w) ;;;
  new_list (seq base (length devs)).

(** [pulse.module_load(name, args)]: the server either loads the module or
    refuses, and a refusal surfaces as an exception.  The index the call
    returns is not used by the program. *)
Definition pulse_module_load (module_name args : string) : Py unit :=
  log_call (ModuleLoad module_name args) ;;;
  ok <- gets (λ w, srv_accepts w (srv_modules w) module_name args) ;;
  if ok : bool
  then modify (λ w, set_srv_modules (srv_modules w ++ [(module_name, args)]) w)
  else raise (PulseError module_name).

Definition newline : string := String (Ascii.ascii_of_nat 10) "".

Fixpoint strip_prefix (p s : string) : option string :=
  match p, s with
  | "", _ => Some s
  | String a p', String b s' => if Ascii.eqb a b then strip_prefix p' s' else None
  | String _ _, "" => None
  end.

(** Drops one trailing line feed. *)
Fixpoint chomp (s : string) : string :=
  match s with
  | "" => ""
  | String c r =>
      if Ascii.eqb c (Ascii.ascii_of_nat 10) && String.eqb r "" then ""
      else String c (chomp r)
  end.

(** What the server does with one line received on its CLI socket:
    [unload-module <name>] unloads every module of that type, and is
    accepted when there is none; other lines leave the module graph
    alone. *)
Definition server_exec_line (line : string) (mods : list LoadedModule)
  : list LoadedModule :=
  match strip_prefix "unload-module " (chomp line) with
  | Some n => filter (λ m, m.1 ≠ n) mods
  | None => mods
  end.

(** [pulsectl.connect_to_cli()], on a running server; the lines written to
    the socket are carried out by the server one by one, and no answer is
    read back. *)
Definition cli_connect : Py unit := log_call CliConnect.

Definition cli_write (data : string) : Py unit :=
  log_call (CliWrite data) ;;;
  modify (λ w, set_srv_modules (server_exec_line data (srv_modules w)) w).

Definition cli_close : Py unit := log_call CliClose.

(** ** os, shutil, fbs_runtime, print *)

(** [os.environ[key]] *)
Definition os_environ (key : string) : Py string :=
  λ w, match environ w !! key with
       | Some v => (Returned v, w)
       | None => (Raised (KeyError key), w)
       end.

Definition starts_with_slash (s : string) : bool :=
  match s with
  | String c _ => Ascii.eqb c "/"%char
  | "" => false
  end.

Fixpoint ends_with_slash (s : string) : bool :=
  match s with
  | "" => false
  | String c "" => Ascii.eqb c "/"%char
  | String _ r => ends_with_slash r
  end.

(** One step of [posixpath.join]: an absolute component replaces what came
    before, otherwise it is appended after exactly one separator. *)
Definition path_join2 (path b : string) : string :=
  if starts_with_slash b then b
  else if String.eqb path "" || ends_with_slash path then path +:+ b
  else path +:+ "/" +:+ b.

(** [os.path.join(a, *p)] *)
Definition os_path_join (a : string) (p : list string) : string :=
  fold_left path_join2 p a.

(** The text before the last separator, if there is a separator. *)
Fixpoint before_last_slash (p : string) : option string :=
  match p with
  | "" => None
  | String c r =>
      match before_last_slash r with
      | Some h => Some (String c h)
      | None => if Ascii.eqb c "/"%char then Some "" else None
      end
  end.

Fixpoint rstrip_slashes (p : string) : string :=
  match p with
  | "" => ""
  | String c r =>
      let r' := rstrip_slashes r in
      if Ascii.eqb c "/"%char && String.eqb r' "" then "" else String c r'
  end.

(** [os.path.dirname(p)] *)
Definition os_path_dirname (p : string) : string :=
  match before_last_slash p with
  | None => ""
  | Some h => if String.eqb (rstrip_slashes h) "" then
                (if starts_with_slash p then "/" else "")
              else rstrip_slashes h
  end.

(** The directories a path passes through: every prefix that stops just
    before a separator. *)
Fixpoint dir_prefixes (acc rest : string) : list string :=
  match rest with
  | "" => []
  | String c r =>
      (if Ascii.eqb c "/"%char && negb (String.eqb acc "") && negb (ends_with_slash acc)
       then [acc] else [])
      ++ dir_prefixes (acc +:+ String c "") r
  end.

Definition ancestors (p : string) : list string := dir_prefixes "" p.

Definition is_dir (w : World) (p : string) : bool :=
  bool_decide (p ∈ fs_dirs w).

Definition is_file (w : World) (p : string) : bool :=
  bool_decide (is_Some (fs_files w !! p)).

(** [os.path.exists(p)] *)
Definition os_path_exists (p : string) : Py bool :=
  gets (λ w, is_dir w p || is_file w p).

(** [os.makedirs(p)]: creates [p] and every missing directory above it;
    fails when [p] exists or when the way to it passes through a regular
    file.  Permissions and I/O faults are outside the model. *)
Definition os_makedirs (p : string) : Py unit :=
  λ w, if is_dir w p || is_file w p then (Raised (FileExistsError p), w)
       else match List.find (is_file w) (ancestors p) with
            | Some a => (Raised (NotADirectoryError a), w)
            | None =>
                (Returned tt,
                 set_fs_dirs (fs_dirs w ∪ list_to_set (ancestors p) ∪ {[p]}) w)
            end.

(** [shutil.copyfile(src, dst)]: opens [src] for reading, then [dst] for
    writing (truncating it), and copies the bytes. *)
Definition shutil_copyfile (src dst : string) : Py unit :=
  λ w, if String.eqb src dst then (Raised (SameFileError src), w)
       else match fs_files w !! src with
            | None =>
                (Raised (if is_dir w src then IsADirectoryError src
                         else FileNotFoundError src), w)
            | Some data =>
                let parent := os_path_dirname dst in
                if is_dir w dst then (Raised (IsADirectoryError dst), w)
                else if is_file w parent then (Raised (NotADirectoryError dst), w)
                else if negb (String.eqb parent "" || is_dir w parent)
                then (Raised (FileNotFoundError dst), w)
                else (Returned tt, set_fs_files (<[dst := data]> (fs_files w)) w)
            end.

(** [app_context.get_resource(rel)]: the path of a bundled file, which has
    to exist. *)
Definition get_resource (ctx : ApplicationContext) (rel : string) : Py string :=
  let p := os_path_join (resource_dir ctx) [rel] in
  found <- os_path_exists p ;;
  if found : bool then ret p else raise (FileNotFoundError rel).

(** [print(s)] *)
Definition print (s : string) : Py unit :=
  modify (λ w, set_stdout (stdout w ++ [s]) w).

(** ["%d" % n] for an integer [n]. *)
Definition fmt_d (n : Z) : string := pretty n.

(** ["%s" % s] *)
Definition fmt_s (s : string) : string := s.

Definition dquote : string := String (Ascii.ascii_of_nat 34) "".

(** ** argparse *)

(** The [Namespace] that [parse_args] returns for the program's parser:
    [cmd] is the sub-command ([dest='cmd']), absent when none was given;
    [source] exists only after [enable]. *)
Record Namespace := {
  cmd : option string;
  source : option string;
}.

(** The spellings of the help flag: [-h], and [--help] or an abbreviation
    of it. *)
Definition is_help (s : string) : bool :=
  String.eqb s "-h" || String.eqb s "--h" || String.eqb s "--he"
  || String.eqb s "--hel" || String.eqb s "--help".

Definition starts_with_dash (s : string) : bool :=
  match s with
  | String c _ => Ascii.eqb c "-"%char
  | "" => false
  end.

Definition is_digit (c : ascii) : bool :=
  (48 <=? nat_of_ascii c)%nat && (nat_of_ascii c <=? 57)%nat.

Fixpoint all_digits (s : string) : bool :=
  match s with
  | "" => true
  | String c r => is_digit c && all_digits r
  end.

Definition some_digits (s : string) : bool :=
  negb (String.eqb s "") && all_digits s.

(** Digits, a dot, and at least one digit. *)
Fixpoint digits_dot_digits (s : string) : bool :=
  match s with
  | "" => false
  | String c r =>
      if Ascii.eqb c "."%char then some_digits r
      else is_digit c && digits_dot_digits r
  end.

(** argparse's test for a negative number: [-] followed by digits, or by
    digits, a dot and digits. *)
Definition negative_number_like (s : string) : bool :=
  match s with
  | String c r => Ascii.eqb c "-"%char && (some_digits r || digits_dot_digits r)
  | "" => false
  end.

Fixpoint has_space (s : string) : bool :=
  match s with
  | "" => false
  | String c r => Ascii.eqb c " "%char || has_space r
  end.

(** The arguments argparse reads as options rather than as positionals: a
    leading dash, unless the argument is a lone dash, looks like a negative
    number or contains a space. *)
Definition option_like (s : string) : bool :=
  starts_with_dash s && negb (String.eqb s "-")
  && negb (negative_number_like s) && negb (has_space s).

(** [parser.parse_args()] for the parser built in
    [CadmusApplicationCli.__init__]: three sub-commands, of which [enable]
    takes one positional argument restricted to [choices]; the only options
    are the help flags argparse adds.  A help flag exits with status 0;
    an unknown sub-command, an unknown option, a source outside [choices]
    and a surplus argument exit with status 2.  Command lines that use the
    [--] separator are not modelled apart from the others. *)
Definition parse_args (choices : list string) (argv : list string)
  : Py Namespace :=
  match argv with
  | [] => ret {| cmd := None; source := None |}
  | sub :: rest =>
      if is_help sub then raise (SystemExit 0)
      else if String.eqb sub "sources" then
        match rest with
        | [] => ret {| cmd := Some "sources"; source := None |}
        | a :: _ => raise (SystemExit (if is_help a then 0 else 2))
        end
      else if String.eqb sub "disable" then
        match rest with
        | [] => ret {| cmd := Some "disable"; source := None |}
        | a :: _ => raise (SystemExit (if is_help a then 0 else 2))
        end
      else if String.eqb sub "enable" then
        match rest with
        | [] => raise (SystemExit 2)
        | a :: rest' =>
            if is_help a then raise (SystemExit 0)
            else if option_like a then raise (SystemExit 2)
            else if bool_decide (a ∈ choices) then
              match rest' with
              | [] => ret {| cmd := Some "enable"; source := Some a |}
              | b :: _ => raise (SystemExit (if is_help b then 0 else 2))
              end
            else raise (SystemExit 2)
        end
      else raise (SystemExit 2)
  end.

(** * The program *)

Module CadmusPulseInterface.

(** [cli_command(command)]: a single command is wrapped in a list; every
    command is written, newline-terminated, to one CLI connection. *)
Definition cli_command (command : string + list string) : Py unit :=
  let command := match command with
                 | inl c => [c]
                 | inr cs => cs
                 end in
  cli_connect ;;;
  for_each command (λ c, cli_write (c +:+ newline)) ;;;
  cli_close.

Definition null_sink_args : string :=
  "sink_name=mic_denoised_out "
  +:+ "sink_properties=" +:+ dquote
  +:+ "device.description='Cadmus Microphone Sink'" +:+ dquote.

Definition ladspa_sink_args (cadmus_lib_path : string) (control_level : Z)
  : string :=
  "sink_name=mic_raw_in sink_master=mic_denoised_out label=noise_suppressor_mono plugin="
  +:+ fmt_s cadmus_lib_path +:+ " control=" +:+ fmt_d control_level +:+ " "
  +:+ "sink_properties=" +:+ dquote
  +:+ "device.description='Cadmus Raw Microphone Redirect'" +:+ dquote.

Definition loopback_args (mic_name : string) : string :=
  "latency_msec=1 source=" +:+ fmt_s mic_name +:+ " sink=mic_raw_in channels=1".

Definition remap_source_args : string :=
  "master=mic_denoised_out.monitor source_name=denoised "
  +:+ "source_properties=" +:+ dquote
  +:+ "device.description='Cadmus Denoised Microphone (Use me!)'" +:+ dquote.

Definition load_modules (mic_name : string) (control_level : Z)
    (cadmus_lib_path : string) : Py unit :=
  let control_level := Z.max control_level 50 in
  pulse_module_load "module-null-sink" null_sink_args ;;;
  pulse_module_load "module-ladspa-sink"
    (ladspa_sink_args cadmus_lib_path control_level) ;;;
  pulse_module_load "module-loopback" (loopback_args mic_name) ;;;
  pulse_module_load "module-remap-source" remap_source_args ;;;
  print ("Set suppression level to " +:+ fmt_d control_level).

Definition unload_modules : Py unit :=
  cli_command
    (inr [ "unload-module module-loopback";
           "unload-module module-null-sink";
           "unload-module module-ladspa-sink";
           "unload-module module-remap-source" ]).

End CadmusPulseInterface.

Module CadmusBackendApp.

Definition sources_list (self : app_ref) : Py list_ref :=
  o <- get_app self ;;
  n <- list_len (audio_sources o) ;;
  if (0 <? n)%nat then list_copy (audio_sources o)
  else
    srcs <- pulse_source_list ;;
    items <- list_items srcs ;;
    for_each items (λ src, list_append (audio_sources o) src) ;;;
    list_copy (audio_sources o).

Definition drop_cadmus_binary (self : app_ref) : Py unit :=
  home <- os_environ "HOME" ;;
  let cadmus_cache_path := os_path_join home [".cache"; "cadmus"] in
  found <- os_path_exists cadmus_cache_path ;;
  (if found : bool then ret tt else os_makedirs cadmus_cache_path) ;;;
  set_cadmus_lib_path self
    (os_path_join cadmus_cache_path ["librnnoise_ladspa.so"]) ;;;
  o <- get_app self ;;
  src <- get_resource (app_context o) "librnnoise_ladspa.so" ;;
  shutil_copyfile src (cadmus_lib_path o).

Definition __init__ (app_context : ApplicationContext) : Py app_ref :=
  l <- new_list [] ;;
  self <- new_app {| audio_sources := l;
                     cadmus_lib_path := "";
                     app_context := app_context |} ;;
  drop_cadmus_binary self ;;;
  ret self.

Definition disable_noise_suppression (self : app_ref) : Py unit :=
  CadmusPulseInterface.unload_modules.

Definition enable_noise_suppression (self : app_ref) (mic_name : string)
    (control_level : Z) : Py unit :=
  l <- sources_list self ;;
  items <- list_items l ;;
  names <- names_of items ;;
  if bool_decide (mic_name ∉ names)
  then raise (Exception ("Unknown mic name " +:+ mic_name))
  else
    o <- get_app self ;;
    CadmusPulseInterface.load_modules mic_name control_level (cadmus_lib_path o).

End CadmusBackendApp.

(** The attributes of a [CadmusApplicationCli] that [run] reads. *)
Record CadmusApplicationCli_obj := {
  backend_app : app_ref;
  args : Namespace;
}.

Module CadmusApplicationCli.

(** [argv] is the process's command line after the program name. *)
Definition __init__ (app_context : ApplicationContext) (argv : list string)
  : Py CadmusApplicationCli_obj :=
  backend <- CadmusBackendApp.__init__ app_context ;;
  l <- CadmusBackendApp.sources_list backend ;;
  items <- list_items l ;;
  choices <- names_of items ;;
  ns <- parse_args choices argv ;;
  ret {| backend_app := backend; args := ns |}.

Definition print_sources (self : CadmusApplicationCli_obj) : Py unit :=
  print "Current sources:" ;;;
  l <- CadmusBackendApp.sources_list (backend_app self) ;;
  items <- list_items l ;;
  for_each items (λ r,
    src <- get_source r ;;
    print "-----------------------------" ;;;
    print ("name = " +:+ name src) ;;;
    print ("description = " +:+ description src)).

Definition run (self : CadmusApplicationCli_obj) : Py unit :=
  if bool_decide (cmd (args self) = Some "sources") then print_sources self
  else if bool_decide (cmd (args self) = Some "enable") then
    match source (args self) with
    | Some s => CadmusBackendApp.enable_noise_suppression (backend_app self) s 50
    | None => raise (AttributeError "source")
    end
  else if bool_decide (cmd (args self) = Some "disable") then
    CadmusBackendApp.disable_noise_suppression (backend_app self)
  else ret tt.

End CadmusApplicationCli.

(** The [__main__] block. *)
Definition main (context : ApplicationContext) (argv : list string) : Py unit :=
  app <- CadmusApplicationCli.__init__ context argv ;;
  CadmusApplicationCli.run app.

(** * Vocabulary of the properties *)

(** The devices a list object denotes: its element references followed
    into the object store. *)
Definition list_view (w : World) (l : list_ref) : option (list PulseSourceInfo) :=
  match py_lists w !! l with
  | Some items => mapM (λ r, py_sources w !! r) items
  | None => None
  end.

(** The element references of the enumerator's cache, [self.audio_sources]. *)
Definition cache_items (w : World) (self : app_ref) : option (list src_ref) :=
  match py_apps w !! self with
  | Some o => py_lists w !! audio_sources o
  | None => None
  end.

(** The devices in the enumerator's cache. *)
Definition cache_view (w : World) (self : app_ref) : option (list PulseSourceInfo) :=
  match py_apps w !! self with
  | Some o => list_view w (audio_sources o)
  | None => None
  end.

(** The four modules of one suppression session, in creation order. *)
Definition session_modules (mic_name : string) (control_level : Z)
    (cadmus_lib_path : string) : list LoadedModule :=
  [ ("module-null-sink", CadmusPulseInterface.null_sink_args);
    ("module-ladspa-sink",
     CadmusPulseInterface.ladspa_sink_args cadmus_lib_path control_level);
    ("module-loopback", CadmusPulseInterface.loopback_args mic_name);
    ("module-remap-source", CadmusPulseInterface.remap_source_args) ].

Definition load_call (m : LoadedModule) : ServerCall := ModuleLoad m.1 m.2.

(** The position of the first request of [ms] that the server refuses when
    they are sent in order, starting from the loaded modules [mods]. *)
Fixpoint first_refused (accepts : list LoadedModule → string → string → bool)
    (mods ms : list LoadedModule) : option nat :=
  match ms with
  | [] => None
  | m :: ms' =>
      if accepts mods m.1 m.2
      then S <$> first_refused accepts (mods ++ [m]) ms'
      else Some 0%nat
  end.

(** The four lines [unload_modules] sends. *)
Definition unload_lines : list string :=
  [ "unload-module module-loopback" +:+ newline;
    "unload-module module-null-sink" +:+ newline;
    "unload-module module-ladspa-sink" +:+ newline;
    "unload-module module-remap-source" +:+ newline ].

(** The value an argument string gives to [key]: the text after [key=] at
    the start of a space-separated word, up to the next space. *)
Fixpoint until_space (s : string) : string :=
  match s with
  | "" => ""
  | String c r => if Ascii.eqb c " "%char then "" else String c (until_space r)
  end.

Fixpoint arg_value_from (key : string) (at_word_start : bool) (s : string)
  : option string :=
  match s with
  | "" => None
  | String c r =>
      match (if at_word_start then strip_prefix (key +:+ "=") s else None) with
      | Some v => Some (until_space v)
      | None => arg_value_from key (Ascii.eqb c " "%char) r
      end
  end.

Definition arg_value (key args : string) : option string :=
  arg_value_from key true args.

(** The devices [sources_list] hands out: the cache once it holds
    something, the server's current list while it is empty. *)
Definition enumerated (w : World) (self : app_ref) : option (list PulseSourceInfo) :=
  match cache_view w self with
  | Some [] => Some (srv_sources w)
  | Some ds => Some ds
  | None => None
  end.

(** The world after the enumerator with cache list [c] has asked the
    server: one new object per device, the list [source_list] returned,
    the cache filled in place, and the copy handed to the caller. *)
Definition query_world (c : list_ref) (w : World) : World :=
  let refs := seq (length (py_sources w)) (length (srv_sources w)) in
  set_py_lists (<[c := refs]> (py_lists w ++ [refs]) ++ [refs])
    (set_py_sources (py_sources w ++ srv_sources w)
       (set_srv_log (srv_log w ++ [SourceList]) w)).

(** ** Concrete worlds *)

Definition set_srv_accepts
    (v : list LoadedModule → string → string → bool) (w : World) : World :=
  {| py_lists := py_lists w; py_sources := py_sources w;
     py_apps := py_apps w;
     srv_sources := srv_sources w; srv_modules := srv_modules w;
     srv_accepts := v; srv_log := srv_log w;
     environ := environ w; fs_dirs := fs_dirs w; fs_files := fs_files w;
     stdout := stdout w |}.

(** A server that loads whatever it is asked to. *)
Definition accept_all : list LoadedModule → string → string → bool :=
  λ _ _ _, true.

(** A server that has no loopback module to offer. *)
Definition refuse_loopback : list LoadedModule → string → string → bool :=
  λ _ module_name _, negb (String.eqb module_name "module-loopback").

Definition mic0 : PulseSourceInfo :=
  {| name := "mic0"; description := "Built-in Mic" |}.

Definition usb1 : PulseSourceInfo :=
  {| name := "usb1"; description := "USB Headset" |}.

Definition demo_context : ApplicationContext :=
  {| resource_dir := "/opt/cadmus" |}.

(** A machine on which the program has not run yet: one microphone, an
    installed bundle, no cache directory. *)
Definition boot_world : World :=
  {| py_lists := []; py_sources := []; py_apps := [];
     srv_sources := [mic0]; srv_modules := [];
     srv_accepts := accept_all; srv_log := [];
     environ := {[ "HOME" := "/home/u" ]};
     fs_dirs := {[ "/home"; "/home/u"; "/opt/cadmus" ]};
     fs_files := {[ "/opt/cadmus/librnnoise_ladspa.so" := "RNNOISE-1" ]};
     stdout := [] |}.

(** The world just after [CadmusBackendApp(demo_context)] was constructed
    on [boot_world]; the new object is reference [0]. *)
Definition started_world : World :=
  (CadmusBackendApp.__init__ demo_context boot_world).2.

(** The same, with the enumerator already asked once. *)
Definition listed_world : World :=
  (CadmusBackendApp.sources_list 0 started_world).2.

(** [boot_world] at the moment the backend object exists and
    [drop_cadmus_binary] is about to run for the first time. *)
Definition unpacked_world : World :=
  set_py_apps
    [ {| audio_sources := 0; cadmus_lib_path := ""; app_context := demo_context |} ]
    (set_py_lists [[]] boot_world).

(** [unload-module <module_name>] as the server carries it out. *)
Definition unload_type (module_name : string) (mods : list LoadedModule)
  : list LoadedModule :=
  filter (λ m, m.1 ≠ module_name) mods.

(** The module types of a suppression session. *)
Definition session_types : list string :=
  [ "module-loopback"; "module-null-sink";
    "module-ladspa-sink"; "module-remap-source" ].

(** An unknown device is turned down and the audio server has not been
    called at all. *)
Definition rejected_without_server_call (w : World) (self : app_ref)
    (mic_name : string) (control_level : Z) : Prop :=
  ∃ e w',
    CadmusBackendApp.enable_noise_suppression self mic_name control_level w
      = (Raised e, w') ∧
    srv_log w' = srv_log w.

(** ** Runs of the enumerator *)

(** A run of the enumerator's clients: before each call the server's
    device list becomes the next entry of [changes].  The result is the
    list handed out by each call. *)
Fixpoint poll (self : app_ref) (changes : list (list PulseSourceInfo))
  : Py (list list_ref) :=
  match changes with
  | [] => ret []
  | ds :: rest =>
      modify (set_srv_sources ds) ;;;
      l <- CadmusBackendApp.sources_list self ;;
      ls <- poll self rest ;;
      ret (l :: ls)
  end.

(** The first answer of the enumerator is what a second call returns, and
    the second call does not ask the server, although the server's list has
    become [later] in between. *)
Definition first_snapshot_is_kept (w : World) (self : app_ref)
    (later : list PulseSourceInfo) : Prop :=
  ∃ l1 w1 l2 w2,
    CadmusBackendApp.sources_list self w = (Returned l1, w1) ∧
    CadmusBackendApp.sources_list self (set_srv_sources later w1)
      = (Returned l2, w2) ∧
    list_view w2 l2 = list_view w1 l1 ∧
    srv_log w2 = srv_log w1.

(** What a client of the enumerator can do between calls: call it again,
    change a list it was handed earlier (any of [append], [remove],
    [clear], [sort], item assignment: the list object gets new contents),
    or wait while the server's device list changes. *)
Inductive ClientStep :=
| CallSourcesList
| MutateReturned (which : nat) (new_items : list src_ref)
| ServerChanges (ds : list PulseSourceInfo).

(** [l[:] = new_items] on a list object. *)
Definition list_assign (l : list_ref) (new_items : list src_ref) : Py unit :=
  modify (λ w, set_py_lists (<[l := new_items]> (py_lists w)) w).

(** Runs a client; [got] are the lists handed out so far, oldest first. *)
Fixpoint client (self : app_ref) (steps : list ClientStep) (got : list list_ref)
  : Py (list list_ref) :=
  match steps with
  | [] => ret got
  | CallSourcesList :: rest =>
      l <- CadmusBackendApp.sources_list self ;;
      client self rest (got ++ [l])
  | MutateReturned which new_items :: rest =>
      match got !! which with
      | Some l => list_assign l new_items
      | None => ret tt
      end ;;;
      client self rest got
  | ServerChanges ds :: rest =>
      modify (set_srv_sources ds) ;;;
      client self rest got
  end.

(** The same client with its list mutations left out. *)
Fixpoint without_mutations (steps : list ClientStep) : list ClientStep :=
  match steps with
  | [] => []
  | MutateReturned _ _ :: rest => without_mutations rest
  | s :: rest => s :: without_mutations rest
  end.

(** [src.name = new_name] on a source object. *)
Definition source_rename (r : src_ref) (new_name : string) : Py unit :=
  s <- get_source r ;;
  modify (λ w, set_py_sources
                 (<[r := {| name := new_name; description := description s |}]>
                    (py_sources w)) w).

(** Two worlds that are the same except for the contents of the list
    objects [got]. *)
Definition same_but_lists (got : list nat) (w1 w2 : World) : Prop :=
  set_py_lists [] w1 = set_py_lists [] w2 ∧
  length (py_lists w1) = length (py_lists w2) ∧
  ∀ l, l ∉ got → py_lists w1 !! l = py_lists w2 !! l.

(** ** The plugin's places *)

(** The cache directory and the plugin's destination for a given [HOME],
    and the bundled plugin of an application context, as
    [drop_cadmus_binary] computes them. *)
Definition cache_dir (home : string) : string :=
  os_path_join home [".cache"; "cadmus"].

Definition plugin_path (home : string) : string :=
  os_path_join (cache_dir home) ["librnnoise_ladspa.so"].

Definition bundled_plugin (ctx : ApplicationContext) : string :=
  os_path_join (resource_dir ctx) ["librnnoise_ladspa.so"].

(** The bundle's plugin file gets new contents (an upgrade of the
    application between two starts). *)
Definition rebundle (ctx : ApplicationContext) (data : string) (w : World) : World :=
  set_fs_files (<[bundled_plugin ctx := data]> (fs_files w)) w.

(** The backend object with its plugin path recorded. *)
Definition with_lib_path (o : CadmusBackendApp_obj) (path : string)
  : CadmusBackendApp_obj :=
  {| audio_sources := audio_sources o;
     cadmus_lib_path := path;
     app_context := app_context o |}.

(** The world after the plugin, with contents [data], was installed for the
    backend [self]: the cache directory exists, the destination holds
    [data], the object knows the destination. *)
Definition installed_world (self : app_ref) (o : CadmusBackendApp_obj)
    (home data : string) (w : World) : World :=
  set_fs_files (<[plugin_path home := data]> (fs_files w))
    (set_py_apps (<[self := with_lib_path o (plugin_path home)]> (py_apps w))
       (set_fs_dirs
          (if decide (cache_dir home ∈ fs_dirs w) then fs_dirs w
           else fs_dirs w ∪ list_to_set (ancestors (cache_dir home))
                ∪ {[cache_dir home]}) w)).

(** ** Vocabulary of the further properties *)

(** A server that loads whatever it is asked to, whatever it has loaded. *)
Definition accepts_everything (w : World) : Prop :=
  ∀ mods module_name args, srv_accepts w mods module_name args = true.

(** No module of a suppression session is loaded. *)
Definition session_free (mods : list LoadedModule) : Prop :=
  Forall (λ m : LoadedModule, m.1 ∉ session_types) mods.

(** What the server does with the lines of one CLI connection. *)
Definition server_exec_lines (lines : list string) (mods : list LoadedModule)
  : list LoadedModule :=
  foldl (λ mods line, server_exec_line line mods) mods lines.

(** The lines [print_sources] prints for one device. *)
Definition source_block (s : PulseSourceInfo) : list string :=
  [ "-----------------------------";
    "name = " +:+ name s;
    "description = " +:+ description s ].

Fixpoint no_space (s : string) : bool :=
  match s with
  | "" => true
  | String c r => negb (Ascii.eqb c " "%char) && no_space r
  end.

(** A machine on which [HOME] is not set. *)
Definition homeless_world : World :=
  {| py_lists := []; py_sources := []; py_apps := [];
     srv_sources := [mic0]; srv_modules := [("module-loopback", "source=a sink=b")];
     srv_accepts := accept_all; srv_log := [];
     environ := ∅;
     fs_dirs := {[ "/opt/cadmus" ]};
     fs_files := {[ "/opt/cadmus/librnnoise_ladspa.so" := "RNNOISE-1" ]};
     stdout := [] |}.

(** [unpacked_world] with an application bundle that lacks the plugin. *)
Definition unbundled_world : World :=
  set_fs_files ∅ unpacked_world.

(** [started_world] with two devices enumerated. *)
Definition two_mics_world : World :=
  (CadmusBackendApp.sources_list 0
     (set_srv_sources [mic0; usb1] started_world)).2.

(** The module graph after the four unload lines of [unload_modules]. *)
Definition unload_session (mods : list LoadedModule) : list LoadedModule :=
  unload_type "module-remap-source"
    (unload_type "module-ladspa-sink"
       (unload_type "module-null-sink"
          (unload_type "module-loopback" mods))).

(** The directories once the cache directory of [home] is ensured. *)
Definition dirs_with_cache (home : string) (w : World) : gset string :=
  if decide (cache_dir home ∈ fs_dirs w) then fs_dirs w
  else fs_dirs w ∪ list_to_set (ancestors (cache_dir home)) ∪ {[cache_dir home]}.

(** The world just after [CadmusBackendApp.__init__] created its list and
    its object, before the plugin is distributed. *)
Definition allocated_world (ctx : ApplicationContext) (w : World) : World :=
  set_py_apps
    (py_apps w ++ [ {| audio_sources := length (py_lists w);
                       cadmus_lib_path := "";
                       app_context := ctx |} ])
    (set_py_lists (py_lists w ++ [[]]) w).

(** A machine on which the program can start: [HOME] is set, the bundle
    of [ctx] holds the plugin with contents [data], and neither the cache
    path nor the destination is taken by something of the wrong kind. *)
Definition can_start (ctx : ApplicationContext) (home data : string) (w : World)
  : Prop :=
  environ w !! "HOME" = Some home ∧
  fs_files w !! bundled_plugin ctx = Some data ∧
  bundled_plugin ctx ≠ plugin_path home ∧
  fs_files w !! cache_dir home = None ∧
  (plugin_path home ∉ fs_dirs w) ∧
  (cache_dir home ∉ fs_dirs w →
   Forall (λ a, fs_files w !! a = None) (ancestors (cache_dir home))).

(** The backend object that [CadmusBackendApp.__init__] leaves in a world
    that started as [w]. *)
Definition started_backend (ctx : ApplicationContext) (home : string) (w : World)
  : CadmusBackendApp_obj :=
  {| audio_sources := length (py_lists w);
     cadmus_lib_path := plugin_path home;
     app_context := ctx |}.

(** The world after [CadmusBackendApp(ctx)] succeeded on [w]. *)
Definition backend_world (ctx : ApplicationContext) (home data : string) (w : World)
  : World :=
  installed_world (length (py_apps w))
    {| audio_sources := length (py_lists w);
       cadmus_lib_path := "";
       app_context := ctx |}
    home data (allocated_world ctx w).

(** The world after [CadmusApplicationCli(ctx)] built its parser on [w]:
    the backend exists and its enumerator was asked once. *)
Definition cli_world (ctx : ApplicationContext) (home data : string) (w : World)
  : World :=
  query_world (length (py_lists w)) (backend_world ctx home data w).

(** * The requests sent to the server *)

Lemma set_srv_log_modules w (log : list ServerCall) (mods : list LoadedModule) :
  srv_log w = log → srv_modules w = mods →
  set_srv_modules mods (set_srv_log log w) = w.
Proof. destruct w; simpl; intros; subst; reflexivity. Qed.

(** Sending a sequence of load requests: everything up to the first refusal
    is logged, everything before it is loaded, and the refusal is raised. *)
Lemma load_sequence ms : ∀ w,
  for_each ms (λ m, pulse_module_load m.1 m.2) w =
  match first_refused (srv_accepts w) (srv_modules w) ms with
  | None =>
      (Returned tt,
       set_srv_modules (srv_modules w ++ ms)
         (set_srv_log (srv_log w ++ (load_call <$> ms)) w))
  | Some i =>
      (Raised (PulseError (default "" ((fst <$> ms) !! i))),
       set_srv_modules (srv_modules w ++ take i ms)
         (set_srv_log (srv_log w ++ (load_call <$> take (S i) ms)) w))
  end.
Proof.
  induction ms as [|[n a] ms IH]; intros w.
  - simpl. unfold ret. rewrite !app_nil_r.
    by rewrite set_srv_log_modules.
  - simpl. unfold bind at 1. unfold pulse_module_load at 1.
    unfold bind, log_call, modify, gets, raise. simpl.
    destruct (srv_accepts w (srv_modules w) n a) eqn:Hacc.
    + rewrite IH. simpl.
      destruct (first_refused _ _ ms) as [i|]; simpl.
      * f_equal. destruct w; unfold set_srv_modules, set_srv_log; simpl.
        f_equal; rewrite <- ?app_assoc; reflexivity.
      * f_equal. destruct w; unfold set_srv_modules, set_srv_log; simpl.
        f_equal; rewrite <- ?app_assoc; reflexivity.
    + simpl. f_equal. destruct w; unfold set_srv_modules, set_srv_log; simpl.
      f_equal. by rewrite app_nil_r.
Qed.

Lemma load_modules_sequence mic c p w :
  CadmusPulseInterface.load_modules mic c p w =
  (for_each (session_modules mic (Z.max c 50) p)
     (λ m, pulse_module_load m.1 m.2) ;;;
   print ("Set suppression level to " +:+ fmt_d (Z.max c 50))) w.
Proof.
  unfold CadmusPulseInterface.load_modules, session_modules.
  cbn [for_each fst snd]. unfold bind.
  repeat (match goal with
          | |- context [pulse_module_load ?a ?b ?v] =>
              destruct (pulse_module_load a b v) as [[[]|?] ?]
          end; try reflexivity).
Qed.

(** ** The heap operations *)

Lemma set_py_lists_id w : set_py_lists (py_lists w) w = w.
Proof. by destruct w. Qed.

Lemma set_py_lists_twice a b w :
  set_py_lists a (set_py_lists b w) = set_py_lists a w.
Proof. by destruct w. Qed.

Lemma for_each_append l xs : ∀ ys w,
  py_lists w !! l = Some ys →
  for_each xs (list_append l) w =
  (Returned tt, set_py_lists (<[l := ys ++ xs]> (py_lists w)) w).
Proof.
  induction xs as [|x xs IH]; intros ys w Hl.
  - simpl. unfold ret. rewrite app_nil_r, list_insert_id by done.
    by rewrite set_py_lists_id.
  - simpl. unfold bind at 1. unfold list_append, bind, list_items, modify.
    rewrite Hl.
    assert (l < length (py_lists w))%nat as Hlt by (by eapply lookup_lt_Some).
    rewrite (IH (ys ++ [x])); simpl.
    + rewrite list_insert_insert_eq, <- app_assoc. simpl.
      by rewrite set_py_lists_twice.
    + by rewrite list_lookup_insert_eq.
Qed.

Lemma mapM_lookup_seq {A} (xs : list A) : ∀ pre,
  mapM (λ r, (pre ++ xs) !! r) (seq (length pre) (length xs)) = Some xs.
Proof.
  induction xs as [|x xs IH]; intros pre; [done|].
  simpl. rewrite list_lookup_middle by done. simpl.
  specialize (IH (pre ++ [x])).
  rewrite <- app_assoc, length_app in IH. simpl in IH.
  rewrite Nat.add_1_r in IH. by rewrite IH.
Qed.

Lemma names_of_view items : ∀ w ds,
  mapM (λ r, py_sources w !! r) items = Some ds →
  names_of items w = (Returned (name <$> ds), w).
Proof.
  induction items as [|r items IH]; intros w ds H; simpl in *.
  - by inversion H.
  - unfold bind, get_source.
    destruct (py_sources w !! r) as [s|]; [|done]. simpl in H.
    destruct (mapM _ items) as [ds'|] eqn:E; [|done].
    simpl in H. inversion H; subst. by rewrite (IH w ds').
Qed.

Lemma mapM_nil_inv {A B} (f : A → option B) xs :
  mapM f xs = Some [] → xs = [].
Proof.
  destruct xs as [|x xs]; [done|]. simpl.
  destruct (f x); [|done]. simpl. by destruct (mapM f xs).
Qed.

(** ** The enumerator *)

Lemma sources_list_cached self w o items :
  py_apps w !! self = Some o →
  py_lists w !! audio_sources o = Some items →
  items ≠ [] →
  CadmusBackendApp.sources_list self w =
  (Returned (length (py_lists w)), set_py_lists (py_lists w ++ [items]) w).
Proof.
  intros Ho Hl Hne. unfold CadmusBackendApp.sources_list.
  unfold bind, get_app, list_len, bind, list_items, ret.
  rewrite Ho, Hl. destruct items as [|i items]; [done|]. simpl.
  unfold list_copy, bind, list_items, new_list. by rewrite Hl.
Qed.

Lemma sources_list_fresh self w o :
  py_apps w !! self = Some o →
  py_lists w !! audio_sources o = Some [] →
  CadmusBackendApp.sources_list self w =
  (Returned (S (length (py_lists w))), query_world (audio_sources o) w).
Proof.
  intros Ho Hl. unfold CadmusBackendApp.sources_list.
  assert (audio_sources o < length (py_lists w))%nat as Hlt
    by (by eapply lookup_lt_Some).
  unfold bind at 1. unfold get_app. rewrite Ho.
  unfold bind at 1. unfold list_len, bind, list_items, ret. rewrite Hl. simpl.
  unfold pulse_source_list, bind, log_call, modify, gets, new_list. simpl.
  rewrite list_lookup_middle by done.
  erewrite for_each_append; last first.
  { simpl. rewrite lookup_app_l by done. exact Hl. }
  simpl. unfold list_copy, bind, list_items, new_list. simpl.
  rewrite list_lookup_insert_eq by (rewrite length_app; lia).
  simpl. unfold query_world. do 2 f_equal.
  rewrite length_insert, length_app. simpl. lia.
Qed.

Lemma load_modules_spec mic c p w :
  CadmusPulseInterface.load_modules mic c p w =
  let ms := session_modules mic (Z.max c 50) p in
  match first_refused (srv_accepts w) (srv_modules w) ms with
  | None =>
      (Returned tt,
       set_stdout (stdout w ++ ["Set suppression level to " +:+ fmt_d (Z.max c 50)])
         (set_srv_modules (srv_modules w ++ ms)
            (set_srv_log (srv_log w ++ (load_call <$> ms)) w)))
  | Some i =>
      (Raised (PulseError (default "" ((fst <$> ms) !! i))),
       set_srv_modules (srv_modules w ++ take i ms)
         (set_srv_log (srv_log w ++ (load_call <$> take (S i) ms)) w))
  end.
Proof.
  rewrite load_modules_sequence. unfold bind. rewrite load_sequence.
  cbv zeta. by destruct (first_refused _ _ _).
Qed.

Lemma first_refused_lt accepts ms : ∀ mods i,
  first_refused accepts mods ms = Some i → (i < length ms)%nat.
Proof.
  induction ms as [|m ms IH]; intros mods i; simpl; [done|].
  destruct (accepts mods m.1 m.2); [|intros [= <-]; lia].
  destruct (first_refused accepts (mods ++ [m]) ms) as [j|] eqn:E; [|done].
  simpl. intros [= <-]. apply IH in E. lia.
Qed.

(** What [enable_noise_suppression] does once the enumerator has answered:
    [w1] is the world the enumeration leaves. *)
Lemma enable_after_enumeration w self o cached mic level :
  py_apps w !! self = Some o →
  cache_view w self = Some cached →
  ∃ w1 ds,
    enumerated w self = Some ds ∧
    srv_log w1 = srv_log w ++ match cached with [] => [SourceList] | _ => [] end ∧
    srv_modules w1 = srv_modules w ∧
    srv_accepts w1 = srv_accepts w ∧
    stdout w1 = stdout w ∧
    CadmusBackendApp.enable_noise_suppression self mic level w =
    if bool_decide (mic ∉ (name <$> ds))
    then (Raised (Exception ("Unknown mic name " +:+ mic)), w1)
    else CadmusPulseInterface.load_modules mic level (cadmus_lib_path o) w1.
Proof.
  intros Ho Hc. unfold enumerated. rewrite Hc. unfold cache_view in Hc.
  rewrite Ho in Hc. unfold list_view in Hc.
  destruct (py_lists w !! audio_sources o) as [items|] eqn:Hl; [|done].
  assert (audio_sources o < length (py_lists w))%nat as Hlt
    by (by eapply lookup_lt_Some).
  unfold CadmusBackendApp.enable_noise_suppression.
  destruct items as [|i items].
  - simpl in Hc. injection Hc as <-.
    exists (query_world (audio_sources o) w), (srv_sources w).
    repeat split; try reflexivity.
    unfold bind at 1. rewrite (sources_list_fresh _ _ o) by done.
    unfold bind at 1. unfold list_items.
    replace (py_lists (query_world (audio_sources o) w) !! S (length (py_lists w)))
      with (Some (seq (length (py_sources w)) (length (srv_sources w)))).
    2:{ unfold query_world. simpl. symmetry. apply list_lookup_middle.
        rewrite length_insert, length_app. simpl. lia. }
    unfold bind at 1.
    rewrite (names_of_view _ _ (srv_sources w))
      by (unfold query_world; simpl; apply mapM_lookup_seq).
    destruct (bool_decide _); [done|].
    unfold bind, get_app. unfold query_world at 1. simpl. by rewrite Ho.
  - destruct cached as [|d cached]; [by apply mapM_nil_inv in Hc|].
    exists (set_py_lists (py_lists w ++ [i :: items]) w), (d :: cached).
    repeat split; try reflexivity; [simpl; by rewrite app_nil_r|].
    unfold bind at 1. rewrite (sources_list_cached _ _ o (i :: items)) by done.
    unfold bind at 1. unfold list_items. simpl py_lists.
    rewrite list_lookup_middle by done.
    unfold bind at 1.
    rewrite (names_of_view _ _ (d :: cached)) by exact Hc.
    destruct (bool_decide _); [done|].
    unfold bind, get_app. simpl. by rewrite Ho.
Qed.

(** * The module graph controller *)

(** C1: enabling noise suppression for a device the enumerator lists, on a
    server that accepts the four requests, returns normally after exactly
    four [module_load] calls: the null sink [mic_denoised_out], the LADSPA
    sink [mic_raw_in] whose [sink_master] is [mic_denoised_out], the
    loopback from the caller's device into [mic_raw_in] with
    [latency_msec=1] and [channels=1], and the remap source [denoised]
    whose master is [mic_denoised_out.monitor].  The only other server
    call is the enumerator's own query, made when its cache is empty. *)
Theorem enable_issues_four_creates_in_order
    (w : World) (self : app_ref) (o : CadmusBackendApp_obj)
    (ds : list PulseSourceInfo) (mic_name : string) (control_level : Z) :
  py_apps w !! self = Some o →
  enumerated w self = Some ds →
  mic_name ∈ (name <$> ds) →
  first_refused (srv_accepts w) (srv_modules w)
    (session_modules mic_name (Z.max control_level 50) (cadmus_lib_path o)) = None →
  ∃ w',
    CadmusBackendApp.enable_noise_suppression self mic_name control_level w
      = (Returned tt, w') ∧
    srv_log w' =
      srv_log w
      ++ match cache_view w self with Some [] => [SourceList] | _ => [] end
      ++ [ ModuleLoad "module-null-sink" CadmusPulseInterface.null_sink_args;
           ModuleLoad "module-ladspa-sink"
             (CadmusPulseInterface.ladspa_sink_args (cadmus_lib_path o)
                (Z.max control_level 50));
           ModuleLoad "module-loopback"
             (CadmusPulseInterface.loopback_args mic_name);
           ModuleLoad "module-remap-source"
             CadmusPulseInterface.remap_source_args ] ∧
    srv_modules w' =
      srv_modules w
      ++ session_modules mic_name (Z.max control_level 50) (cadmus_lib_path o) ∧
    arg_value "sink_name" CadmusPulseInterface.null_sink_args
      = Some "mic_denoised_out" ∧
    arg_value "sink_name"
      (CadmusPulseInterface.ladspa_sink_args (cadmus_lib_path o)
         (Z.max control_level 50)) = Some "mic_raw_in" ∧
    arg_value "sink_master"
      (CadmusPulseInterface.ladspa_sink_args (cadmus_lib_path o)
         (Z.max control_level 50)) = Some "mic_denoised_out" ∧
    CadmusPulseInterface.loopback_args mic_name
      = "latency_msec=1 source=" +:+ mic_name +:+ " sink=mic_raw_in channels=1" ∧
    arg_value "master" CadmusPulseInterface.remap_source_args
      = Some "mic_denoised_out.monitor" ∧
    arg_value "source_name" CadmusPulseInterface.remap_source_args
      = Some "denoised".
Proof.
  intros Ho Hen Hin Hacc.
  assert (∃ cached, cache_view w self = Some cached) as [cached Hc].
  { unfold enumerated in Hen. destruct (cache_view w self); [eauto|done]. }
  destruct (enable_after_enumeration w self o cached mic_name control_level Ho Hc)
    as (w1 & ds' & Hen' & Hlog & Hmods & Hsrv & _ & ->).
  assert (ds' = ds) as -> by congruence.
  rewrite bool_decide_eq_false_2 by (intros Hn; by apply Hn).
  rewrite load_modules_spec. cbv zeta. rewrite Hsrv, Hmods, Hacc.
  eexists. split; [reflexivity|]. simpl srv_log. simpl srv_modules.
  rewrite Hlog, Hc, <- app_assoc.
  repeat split; reflexivity.
Qed.

Lemma enable_issues_four_creates_in_order_witness :
  ∃ w',
    CadmusBackendApp.enable_noise_suppression 0 "mic0" 30 started_world
      = (Returned tt, w') ∧
    srv_log w' =
      [ SourceList;
        ModuleLoad "module-null-sink" CadmusPulseInterface.null_sink_args;
        ModuleLoad "module-ladspa-sink"
          (CadmusPulseInterface.ladspa_sink_args
             "/home/u/.cache/cadmus/librnnoise_ladspa.so" 50);
        ModuleLoad "module-loopback" (CadmusPulseInterface.loopback_args "mic0");
        ModuleLoad "module-remap-source" CadmusPulseInterface.remap_source_args ].
Proof.
  destruct (enable_issues_four_creates_in_order started_world 0
              {| audio_sources := 0;
                 cadmus_lib_path := "/home/u/.cache/cadmus/librnnoise_ladspa.so";
                 app_context := demo_context |}
              [mic0] "mic0" 30)
    as (w' & Hrun & Hlog & _);
    [vm_compute; reflexivity | vm_compute; reflexivity | |
     vm_compute; reflexivity |].
  - apply list_elem_of_here.
  - exists w'. split; [exact Hrun | exact Hlog].
Defined.

(** C2, as stated, fails: a backend whose enumerator has not been asked yet
    validates the name against the server's list, so the rejection of
    [doesnotexist] is preceded by one [source_list] call. *)
Lemma enable_unknown_device_queries_server :
  enumerated started_world 0 = Some [mic0] ∧
  ("doesnotexist" ∉ (name <$> [mic0])) ∧
  ¬ rejected_without_server_call started_world 0 "doesnotexist" 50.
Proof.
  split; [vm_compute; reflexivity|]. split.
  - intros H. apply list_elem_of_In in H. simpl in H.
    destruct H as [H|[]]. discriminate H.
  - intros (e & w' & Hrun & Hlog).
    assert (srv_log (CadmusBackendApp.enable_noise_suppression
                       0 "doesnotexist" 50 started_world).2 = [SourceList])
      as Hq by (vm_compute; reflexivity).
    rewrite Hrun in Hq. cbn [snd] in Hq. rewrite Hlog in Hq.
    vm_compute in Hq. discriminate Hq.
Qed.

(** C2, amended: enabling a device that the enumerator does not list raises
    the "Unknown mic name" exception before any module is created or
    unloaded: the module graph and the program's output are unchanged.  The
    only server call on this path is the enumerator's read-only query, made
    when its cache is empty; with a non-empty cache there is none. *)
Theorem enable_unknown_device_loads_nothing
    (w : World) (self : app_ref) (cached ds : list PulseSourceInfo)
    (mic_name : string) (control_level : Z) :
  cache_view w self = Some cached →
  enumerated w self = Some ds →
  mic_name ∉ (name <$> ds) →
  ∃ w',
    CadmusBackendApp.enable_noise_suppression self mic_name control_level w
      = (Raised (Exception ("Unknown mic name " +:+ mic_name)), w') ∧
    srv_log w' =
      srv_log w ++ match cached with [] => [SourceList] | _ => [] end ∧
    (cached ≠ [] → srv_log w' = srv_log w) ∧
    srv_modules w' = srv_modules w ∧
    stdout w' = stdout w.
Proof.
  intros Hc Hen Hnot.
  assert (∃ o, py_apps w !! self = Some o) as [o Ho].
  { unfold cache_view in Hc. destruct (py_apps w !! self); [eauto|done]. }
  destruct (enable_after_enumeration w self o cached mic_name control_level Ho Hc)
    as (w1 & ds' & Hen' & Hlog & Hmods & _ & Hout & ->).
  assert (ds' = ds) as -> by congruence.
  rewrite bool_decide_eq_true_2 by done.
  exists w1. repeat split; try done.
  intros Hne. rewrite Hlog. destruct cached; [done|]. by rewrite app_nil_r.
Qed.

Lemma enable_unknown_device_loads_nothing_witness :
  ∃ w',
    CadmusBackendApp.enable_noise_suppression 0 "doesnotexist" 50 listed_world
      = (Raised (Exception "Unknown mic name doesnotexist"), w') ∧
    srv_log w' = srv_log listed_world ∧
    srv_modules w' = srv_modules listed_world.
Proof.
  destruct (enable_unknown_device_loads_nothing listed_world 0 [mic0] [mic0]
              "doesnotexist" 50)
    as (w' & Hrun & _ & Hlog & Hmods & _);
    [vm_compute; reflexivity | vm_compute; reflexivity | |].
  - intros H. apply list_elem_of_In in H. simpl in H.
    destruct H as [H|[]]. discriminate H.
  - exists w'. repeat split; [exact Hrun | by apply Hlog | exact Hmods].
Defined.



(** ** Disabling *)

Lemma server_exec_unload_line line n mods :
  strip_prefix "unload-module " (chomp line) = Some n →
  server_exec_line line mods = unload_type n mods.
Proof. intros H. unfold server_exec_line. by rewrite H. Qed.

Lemma unload_type_removes n mods : Forall (λ m, m.1 ≠ n) (unload_type n mods).
Proof. apply Forall_forall. intros m Hm. by apply list_elem_of_filter in Hm as [? _]. Qed.

Lemma unload_type_keeps (P : LoadedModule → Prop) n mods :
  Forall P mods → Forall P (unload_type n mods).
Proof.
  rewrite !Forall_forall. intros H m Hm.
  apply list_elem_of_filter in Hm as [_ Hm]. by apply H.
Qed.

(** What the four unload lines do, in any world. *)
Lemma unload_modules_spec (w : World) :
  CadmusPulseInterface.unload_modules w =
  (Returned tt,
   set_srv_modules
     (unload_type "module-remap-source"
        (unload_type "module-ladspa-sink"
           (unload_type "module-null-sink"
              (unload_type "module-loopback" (srv_modules w)))))
     (set_srv_log
        (srv_log w
         ++ [ CliConnect;
              CliWrite ("unload-module module-loopback" +:+ newline);
              CliWrite ("unload-module module-null-sink" +:+ newline);
              CliWrite ("unload-module module-ladspa-sink" +:+ newline);
              CliWrite ("unload-module module-remap-source" +:+ newline);
              CliClose ]) w)).
Proof.
  unfold CadmusPulseInterface.unload_modules, CadmusPulseInterface.cli_command.
  cbn [for_each].
  unfold cli_connect, cli_write, cli_close, log_call, modify, ret.
  repeat (unfold bind; cbn beta iota).
  rewrite (server_exec_unload_line
             ("unload-module module-loopback" +:+ newline) "module-loopback"),
    (server_exec_unload_line
       ("unload-module module-null-sink" +:+ newline) "module-null-sink"),
    (server_exec_unload_line
       ("unload-module module-ladspa-sink" +:+ newline) "module-ladspa-sink"),
    (server_exec_unload_line
       ("unload-module module-remap-source" +:+ newline) "module-remap-source")
    by reflexivity.
  cbn [srv_log srv_modules set_srv_log set_srv_modules].
  rewrite <- !app_assoc. cbn [app].
  generalize (unload_type "module-remap-source"
                (unload_type "module-ladspa-sink"
                   (unload_type "module-null-sink"
                      (unload_type "module-loopback" (srv_modules w))))).
  intros mods. by destruct w.
Qed.

(** C4: disabling always sends exactly the four unload lines, for the
    loopback, the null sink, the filter sink and the remap source in that
    order, over one CLI connection, and returns normally.  It reads neither
    the backend object nor anything of the world: the statement holds in
    every world, whether or not anything was ever enabled.  The server drops
    the modules of the four types and nothing else changes. *)
Theorem disable_issues_four_unloads (w : World) (self : app_ref) :
  CadmusBackendApp.disable_noise_suppression self w =
  (Returned tt,
   set_srv_modules
     (unload_type "module-remap-source"
        (unload_type "module-ladspa-sink"
           (unload_type "module-null-sink"
              (unload_type "module-loopback" (srv_modules w)))))
     (set_srv_log
        (srv_log w
         ++ [ CliConnect;
              CliWrite ("unload-module module-loopback" +:+ newline);
              CliWrite ("unload-module module-null-sink" +:+ newline);
              CliWrite ("unload-module module-ladspa-sink" +:+ newline);
              CliWrite ("unload-module module-remap-source" +:+ newline);
              CliClose ]) w)).
Proof.
  unfold CadmusBackendApp.disable_noise_suppression. apply unload_modules_spec.
Qed.

Lemma unload_session_types_gone mods :
  Forall (λ m : LoadedModule, m.1 ∉ session_types)
    (unload_type "module-remap-source"
       (unload_type "module-ladspa-sink"
          (unload_type "module-null-sink"
             (unload_type "module-loopback" mods)))).
Proof.
  assert (Forall (λ m : LoadedModule,
            m.1 ≠ "module-remap-source" ∧ m.1 ≠ "module-ladspa-sink" ∧
            m.1 ≠ "module-null-sink" ∧ m.1 ≠ "module-loopback")
            (unload_type "module-remap-source"
               (unload_type "module-ladspa-sink"
                  (unload_type "module-null-sink"
                     (unload_type "module-loopback" mods))))) as H.
  { repeat (apply Forall_and; split);
      repeat (first [apply unload_type_removes | apply unload_type_keeps]). }
  eapply Forall_impl; [exact H|]. simpl. intros m (H1 & H2 & H3 & H4).
  unfold session_types. rewrite !elem_of_cons, elem_of_nil.
  intros [E|[E|[E|[E|[]]]]]; congruence.
Qed.

(** C7: when the server refuses one of the four requests, the refusal
    leaves [enable_noise_suppression] as an exception, and nothing is
    undone: the modules loaded by the stages before it are still in the
    server, the only calls made are the enumerator's query and the load
    requests up to the refused one, and no unload line is sent.  The
    leftovers go away only when disabling is asked for. *)
Theorem enable_failure_is_not_rolled_back
    (w : World) (self : app_ref) (o : CadmusBackendApp_obj)
    (ds : list PulseSourceInfo) (mic_name : string) (control_level : Z)
    (i : nat) :
  let ms := session_modules mic_name (Z.max control_level 50) (cadmus_lib_path o) in
  py_apps w !! self = Some o →
  enumerated w self = Some ds →
  mic_name ∈ (name <$> ds) →
  first_refused (srv_accepts w) (srv_modules w) ms = Some i →
  ∃ w' m,
    ms !! i = Some m ∧
    CadmusBackendApp.enable_noise_suppression self mic_name control_level w
      = (Raised (PulseError m.1), w') ∧
    srv_modules w' = srv_modules w ++ take i ms ∧
    srv_log w' =
      srv_log w
      ++ match cache_view w self with Some [] => [SourceList] | _ => [] end
      ++ (load_call <$> take (S i) ms) ∧
    stdout w' = stdout w ∧
    Forall (λ m : LoadedModule, m.1 ∉ session_types)
      (srv_modules (CadmusBackendApp.disable_noise_suppression self w').2).
Proof.
  intros ms Ho Hen Hin Href. unfold ms in *. clear ms.
  assert (∃ cached, cache_view w self = Some cached) as [cached Hc].
  { unfold enumerated in Hen. destruct (cache_view w self); [eauto|done]. }
  destruct (enable_after_enumeration w self o cached mic_name control_level Ho Hc)
    as (w1 & ds' & Hen' & Hlog & Hmods & Hsrv & Hout & ->).
  assert (ds' = ds) as -> by congruence.
  rewrite bool_decide_eq_false_2 by (intros Hn; by apply Hn).
  rewrite load_modules_spec. cbv zeta. rewrite Hsrv, Hmods, Href.
  pose proof (first_refused_lt _ _ _ _ Href) as Hlt.
  destruct (lookup_lt_is_Some_2 _ i Hlt) as [m Hm].
  eexists _, m. split; [exact Hm|]. rewrite list_lookup_fmap, Hm.
  change (default "" (fst <$> Some m)) with m.1.
  split; [reflexivity|].
  unfold CadmusBackendApp.disable_noise_suppression.
  rewrite unload_modules_spec.
  cbn [srv_modules srv_log stdout set_srv_modules set_srv_log snd].
  rewrite Hlog, Hc, <- app_assoc, Hout.
  repeat split. apply unload_session_types_gone.
Qed.

Lemma enable_failure_is_not_rolled_back_witness :
  ∃ w',
    CadmusBackendApp.enable_noise_suppression 0 "mic0" 50
      (set_srv_accepts refuse_loopback started_world)
      = (Raised (PulseError "module-loopback"), w') ∧
    srv_modules w' =
      [ ("module-null-sink", CadmusPulseInterface.null_sink_args);
        ("module-ladspa-sink",
         CadmusPulseInterface.ladspa_sink_args
           "/home/u/.cache/cadmus/librnnoise_ladspa.so" 50) ].
Proof.
  destruct (enable_failure_is_not_rolled_back
              (set_srv_accepts refuse_loopback started_world) 0
              {| audio_sources := 0;
                 cadmus_lib_path := "/home/u/.cache/cadmus/librnnoise_ladspa.so";
                 app_context := demo_context |}
              [mic0] "mic0" 50 2)
    as (w' & m & Hm & Hrun & Hmods & _);
    [vm_compute; reflexivity | vm_compute; reflexivity |
     apply list_elem_of_here | vm_compute; reflexivity |].
  injection Hm as <-. exists w'. split; [exact Hrun | exact Hmods].
Defined.

(** * The device enumerator *)

Lemma cache_view_inv w self ds :
  cache_view w self = Some ds →
  ∃ o items,
    py_apps w !! self = Some o ∧
    py_lists w !! audio_sources o = Some items ∧
    mapM (λ r, py_sources w !! r) items = Some ds.
Proof.
  unfold cache_view, list_view. intros H.
  destruct (py_apps w !! self) as [o|]; [|done].
  destruct (py_lists w !! audio_sources o) as [items|] eqn:Hl; [|done].
  exists o, items. by repeat split.
Qed.

Lemma mapM_lookup_app {A} (pre post : list A) (items : list nat) xs :
  mapM (λ r, pre !! r) items = Some xs →
  mapM (λ r, (pre ++ post) !! r) items = Some xs.
Proof.
  revert xs. induction items as [|r items IH]; intros xs; simpl; [done|].
  destruct (pre !! r) as [x|] eqn:Hr; [|done]. simpl.
  rewrite (lookup_app_l_Some _ _ _ _ Hr). simpl.
  destruct (mapM _ items) as [xs'|]; [|done].
  by rewrite (IH xs' eq_refl).
Qed.

(** A call that finds the cache filled hands out a copy and changes nothing
    else. *)
Lemma sources_list_hit w self ds :
  cache_view w self = Some ds → ds ≠ [] →
  ∃ items,
    CadmusBackendApp.sources_list self w
      = (Returned (length (py_lists w)), set_py_lists (py_lists w ++ [items]) w) ∧
    list_view (set_py_lists (py_lists w ++ [items]) w) (length (py_lists w))
      = Some ds ∧
    cache_view (set_py_lists (py_lists w ++ [items]) w) self = Some ds.
Proof.
  intros Hc Hne. destruct (cache_view_inv _ _ _ Hc) as (o & items & Ho & Hl & Hv).
  exists items. split; [|split].
  - apply (sources_list_cached _ _ o); [done..|]. intros ->. by injection Hv as <-.
  - unfold list_view. simpl. by rewrite list_lookup_middle.
  - unfold cache_view, list_view. simpl. rewrite Ho.
    by rewrite (lookup_app_l_Some _ _ _ _ Hl).
Qed.

(** A call that finds the cache empty asks the server and caches whatever
    it answers. *)
Lemma sources_list_miss w self :
  cache_view w self = Some [] →
  ∃ o,
    py_apps w !! self = Some o ∧
    (audio_sources o < length (py_lists w))%nat ∧
    CadmusBackendApp.sources_list self w
      = (Returned (S (length (py_lists w))), query_world (audio_sources o) w) ∧
    list_view (query_world (audio_sources o) w) (S (length (py_lists w)))
      = Some (srv_sources w) ∧
    cache_view (query_world (audio_sources o) w) self = Some (srv_sources w).
Proof.
  intros Hc. destruct (cache_view_inv _ _ _ Hc) as (o & items & Ho & Hl & Hv).
  apply mapM_nil_inv in Hv as ->.
  assert (audio_sources o < length (py_lists w))%nat as Hlt
    by (by eapply lookup_lt_Some).
  exists o. split; [done|]. split; [done|]. split; [|split].
  - by apply sources_list_fresh.
  - unfold list_view, query_world. simpl.
    rewrite list_lookup_middle
      by (rewrite length_insert, length_app; simpl; lia).
    apply mapM_lookup_seq.
  - unfold cache_view, list_view, query_world. simpl. rewrite Ho.
    rewrite lookup_app_l by (rewrite length_insert, length_app; simpl; lia).
    rewrite list_lookup_insert_eq by (rewrite length_app; simpl; lia).
    apply mapM_lookup_seq.
Qed.

(** Lists handed out earlier are not touched by a later call. *)
Lemma list_view_after_hit w items l :
  (l < length (py_lists w))%nat →
  list_view (set_py_lists (py_lists w ++ [items]) w) l = list_view w l.
Proof. intros Hl. unfold list_view. simpl. by rewrite lookup_app_l. Qed.

Lemma list_view_after_miss w c l ds :
  (l < length (py_lists w))%nat → l ≠ c →
  list_view w l = Some ds →
  list_view (query_world c w) l = Some ds.
Proof.
  intros Hl Hne. unfold list_view, query_world. simpl.
  rewrite lookup_app_l by (rewrite length_insert, length_app; simpl; lia).
  rewrite list_lookup_insert_ne by congruence.
  rewrite lookup_app_l by done.
  destruct (py_lists w !! l) as [items|]; [|done].
  apply mapM_lookup_app.
Qed.

(** Once the cache holds [ds], every later call returns [ds] and none asks
    the server, whatever the server's list has become. *)
Lemma poll_cached self ds changes : ∀ w,
  cache_view w self = Some ds → ds ≠ [] →
  ∃ ls w',
    poll self changes w = (Returned ls, w') ∧
    length ls = length changes ∧
    Forall (λ l, list_view w' l = Some ds) ls ∧
    srv_log w' = srv_log w ∧
    cache_view w' self = Some ds ∧
    (length (py_lists w) ≤ length (py_lists w'))%nat ∧
    (∀ l, (l < length (py_lists w))%nat → list_view w' l = list_view w l).
Proof.
  induction changes as [|c changes IH]; intros w Hc Hne.
  - exists [], w. by repeat split.
  - simpl. unfold bind at 1. unfold modify.
    destruct (sources_list_hit (set_srv_sources c w) self ds Hc Hne)
      as (items & Hrun & Hview & Hcache).
    unfold bind at 1. rewrite Hrun.
    destruct (IH _ Hcache Hne) as (ls & w' & Hpoll & Hlen & Hall & Hlog & Hc' & Hgrow & Hframe).
    simpl in Hgrow, Hframe. rewrite length_app in Hgrow, Hframe. simpl in Hgrow, Hframe.
    unfold bind. rewrite Hpoll. unfold ret.
    exists (length (py_lists w) :: ls), w'. simpl in *.
    repeat split; try done.
    + by rewrite Hlen.
    + constructor; [|done]. rewrite Hframe by lia. exact Hview.
    + lia.
    + intros l Hl. rewrite Hframe by lia.
      by apply (list_view_after_hit (set_srv_sources c w)).
Qed.

Lemma first_snapshot_is_kept_views w self later :
  first_snapshot_is_kept w self later →
  let r1 := CadmusBackendApp.sources_list self w in
  let r2 := CadmusBackendApp.sources_list self (set_srv_sources later r1.2) in
  match r1.1, r2.1 with
  | Returned l1, Returned l2 => list_view r2.2 l2 = list_view r1.2 l1
  | _, _ => False
  end.
Proof.
  intros (l1 & w1 & l2 & w2 & H1 & H2 & Hview & _). cbv zeta.
  rewrite H1. cbn [fst snd]. rewrite H2. cbn [fst snd]. exact Hview.
Qed.

(** C5, as stated, fails: when the server has no device at the first call,
    nothing is kept, and a second call made after a microphone appeared
    asks the server again and returns the microphone. *)
Lemma empty_first_answer_is_not_kept :
  (∃ l1 w1 l2 w2,
     CadmusBackendApp.sources_list 0 (set_srv_sources [] started_world)
       = (Returned l1, w1) ∧
     CadmusBackendApp.sources_list 0 (set_srv_sources [mic0] w1)
       = (Returned l2, w2) ∧
     list_view w1 l1 = Some [] ∧
     list_view w2 l2 = Some [mic0]) ∧
  ¬ first_snapshot_is_kept (set_srv_sources [] started_world) 0 [mic0].
Proof.
  split.
  - exists 2%nat,
      (CadmusBackendApp.sources_list 0 (set_srv_sources [] started_world)).2,
      4%nat,
      (CadmusBackendApp.sources_list 0
         (set_srv_sources [mic0]
            (CadmusBackendApp.sources_list 0
               (set_srv_sources [] started_world)).2)).2.
    split; [vm_compute; reflexivity|]. split; [vm_compute; reflexivity|].
    split; vm_compute; reflexivity.
  - intros H. apply first_snapshot_is_kept_views in H.
    vm_compute in H. discriminate H.
Qed.

(** C5, amended: when the first call finds at least one device, it asks the
    server once and caches the answer, and every later call returns that
    answer without asking again, whatever the server's list has become in
    between. *)
Theorem first_nonempty_snapshot_is_kept
    (w : World) (self : app_ref) (changes : list (list PulseSourceInfo)) :
  cache_view w self = Some [] →
  srv_sources w ≠ [] →
  (∀ later, first_snapshot_is_kept w self later) ∧
  ∃ l1 w1 ls w2,
    CadmusBackendApp.sources_list self w = (Returned l1, w1) ∧
    srv_log w1 = srv_log w ++ [SourceList] ∧
    list_view w1 l1 = Some (srv_sources w) ∧
    cache_view w1 self = Some (srv_sources w) ∧
    poll self changes w1 = (Returned ls, w2) ∧
    length ls = length changes ∧
    Forall (λ l, list_view w2 l = Some (srv_sources w)) ls ∧
    list_view w2 l1 = Some (srv_sources w) ∧
    srv_log w2 = srv_log w1 ∧
    cache_view w2 self = Some (srv_sources w).
Proof.
  intros Hc Hne.
  destruct (sources_list_miss w self Hc) as (o & Ho & Hlt & Hrun & Hview & Hcache).
  split.
  - intros later.
    destruct (sources_list_hit (set_srv_sources later (query_world (audio_sources o) w))
                self (srv_sources w) Hcache Hne) as (items & Hrun2 & Hview2 & _).
    eexists _, _, _, _. split; [exact Hrun|]. split; [exact Hrun2|].
    split; [|reflexivity]. rewrite Hview2. symmetry. exact Hview.
  - destruct (poll_cached self (srv_sources w) changes _ Hcache Hne)
      as (ls & w2 & Hpoll & Hlen & Hall & Hlog & Hc2 & _ & Hframe).
    exists (S (length (py_lists w))), (query_world (audio_sources o) w), ls, w2.
    repeat split; try done.
    rewrite Hframe; [done|].
    unfold query_world. simpl. rewrite length_app, length_insert, length_app.
    simpl. lia.
Qed.

Lemma first_nonempty_snapshot_is_kept_witness :
  first_snapshot_is_kept started_world 0 [mic0; usb1].
Proof.
  destruct (first_nonempty_snapshot_is_kept started_world 0 [])
    as [Hkept _]; [vm_compute; reflexivity | discriminate |].
  apply Hkept.
Defined.

Lemma poll_until_devices self o later n : ∀ w,
  py_apps w !! self = Some o →
  cache_view w self = Some [] →
  ∃ ls l w',
    poll self (replicate n [] ++ [later]) w = (Returned (ls ++ [l]), w') ∧
    length ls = n ∧
    srv_log w' = srv_log w ++ replicate (S n) SourceList ∧
    Forall (λ l', list_view w' l' = Some []) ls ∧
    list_view w' l = Some later ∧
    cache_view w' self = Some later ∧
    (∀ l0 ds, (l0 < length (py_lists w))%nat → l0 ≠ audio_sources o →
              list_view w l0 = Some ds → list_view w' l0 = Some ds).
Proof.
  induction n as [|n IH]; intros w Ho Hc.
  - destruct (sources_list_miss (set_srv_sources later w) self Hc)
      as (o' & Ho' & Hlt & Hrun & Hview & Hcache).
    simpl in Ho'. assert (o' = o) as -> by congruence.
    exists [], (S (length (py_lists w))), (query_world (audio_sources o) (set_srv_sources later w)).
    simpl. unfold bind at 1. unfold modify. unfold bind at 1. rewrite Hrun.
    unfold bind, ret. repeat split; try done.
    intros l0 ds Hl0 Hne Hv.
    by apply (list_view_after_miss (set_srv_sources later w)).
  - destruct (sources_list_miss (set_srv_sources [] w) self Hc)
      as (o' & Ho' & Hlt & Hrun & Hview & Hcache).
    simpl in Ho'. assert (o' = o) as -> by congruence.
    simpl in Hlt, Hview, Hcache.
    destruct (IH (query_world (audio_sources o) (set_srv_sources [] w)) Ho Hcache)
      as (ls & l & w' & Hpoll & Hlen & Hlog & Hall & Hv & Hc' & Hframe).
    exists (S (length (py_lists w)) :: ls), l, w'.
    change (replicate (S n) [] ++ [later])
      with (([] : list PulseSourceInfo) :: (replicate n [] ++ [later])).
    cbn [poll]. unfold bind at 1. unfold modify. unfold bind at 1. rewrite Hrun.
    unfold bind at 1. rewrite Hpoll. unfold ret.
    assert (length (py_lists (query_world (audio_sources o) (set_srv_sources [] w)))
            = S (S (length (py_lists w)))) as Hlen2.
    { unfold query_world. simpl. rewrite length_app, length_insert, length_app.
      simpl. lia. }
    repeat split; try done.
    + simpl. by rewrite Hlen.
    + rewrite Hlog. unfold query_world. simpl. by rewrite <- app_assoc.
    + constructor; [|done]. apply Hframe; [lia | lia | exact Hview].
    + intros l0 ds Hl0 Hne Hv0. apply Hframe; [lia | done |].
      by apply (list_view_after_miss (set_srv_sources [] w)).
Qed.

(** C9: while the server has no device, nothing is cached: each of [n]
    calls made against an empty server asks it and returns the empty list,
    and the call made after devices appeared asks again and returns them,
    which is when the cache gets its contents. *)
Theorem empty_answer_is_not_cached
    (w : World) (self : app_ref) (n : nat) (later : list PulseSourceInfo) :
  cache_view w self = Some [] →
  ∃ ls l w',
    poll self (replicate n [] ++ [later]) w = (Returned (ls ++ [l]), w') ∧
    length ls = n ∧
    srv_log w' = srv_log w ++ replicate (S n) SourceList ∧
    Forall (λ l', list_view w' l' = Some []) ls ∧
    list_view w' l = Some later ∧
    cache_view w' self = Some later.
Proof.
  intros Hc. destruct (cache_view_inv _ _ _ Hc) as (o & _ & Ho & _).
  destruct (poll_until_devices self o later n w Ho Hc)
    as (ls & l & w' & H1 & H2 & H3 & H4 & H5 & H6 & _).
  by exists ls, l, w'.
Qed.

Lemma empty_answer_is_not_cached_witness :
  ∃ ls l w',
    poll 0 [[]; []; [mic0]] started_world = (Returned (ls ++ [l]), w') ∧
    srv_log w' = [SourceList; SourceList; SourceList] ∧
    list_view w' l = Some [mic0].
Proof.
  destruct (empty_answer_is_not_cached started_world 0 2 [mic0])
    as (ls & l & w' & Hrun & _ & Hlog & _ & Hview & _);
    [vm_compute; reflexivity|].
  exists ls, l, w'. split; [exact Hrun|]. split; [exact Hlog | exact Hview].
Defined.

(** ** Clients that change the lists they were handed *)

Lemma same_but_lists_fields got w1 w2 :
  same_but_lists got w1 w2 →
  py_sources w1 = py_sources w2 ∧ py_apps w1 = py_apps w2 ∧
  srv_sources w1 = srv_sources w2 ∧ srv_log w1 = srv_log w2.
Proof.
  intros [H _]. destruct w1, w2. unfold set_py_lists in H. simpl in *.
  injection H; intros; subst. by repeat split.
Qed.

Lemma sources_list_dangling self w o :
  py_apps w !! self = Some o →
  py_lists w !! audio_sources o = None →
  CadmusBackendApp.sources_list self w = (Raised (SystemError "list"), w).
Proof.
  intros Ho Hl. unfold CadmusBackendApp.sources_list.
  unfold bind, get_app, list_len, bind, list_items. by rewrite Ho, Hl.
Qed.

Lemma query_world_erased c w1 w2 :
  set_py_lists [] w1 = set_py_lists [] w2 →
  set_py_lists [] (query_world c w1) = set_py_lists [] (query_world c w2).
Proof.
  intros H. destruct w1, w2. unfold set_py_lists in H. simpl in H.
  injection H; intros; subst. reflexivity.
Qed.

Lemma lookup_after_query (L1 L2 : list (list nat)) c refs (got : list nat) l :
  length L1 = length L2 →
  (c < length L1)%nat →
  (∀ l, l ∉ got → L1 !! l = L2 !! l) →
  l ∉ got →
  (<[c := refs]> (L1 ++ [refs]) ++ [refs]) !! l
  = (<[c := refs]> (L2 ++ [refs]) ++ [refs]) !! l.
Proof.
  intros Hlen Hc Hsame Hl.
  rewrite !insert_app_l by lia. rewrite <- !app_assoc.
  destruct (decide (l < length L1)%nat) as [Hlt|Hge].
  - rewrite !lookup_app_l by (rewrite length_insert; lia).
    destruct (decide (c = l)) as [->|Hne].
    + by rewrite !list_lookup_insert_eq by lia.
    + rewrite !list_lookup_insert_ne by done. by apply Hsame.
  - rewrite (lookup_app_r (<[c:=refs]> L1)), (lookup_app_r (<[c:=refs]> L2))
      by (rewrite length_insert; lia).
    by rewrite !length_insert, Hlen.
Qed.

Lemma lookup_after_copy (L1 L2 : list (list nat)) items (got : list nat) l :
  length L1 = length L2 →
  (∀ l, l ∉ got → L1 !! l = L2 !! l) →
  l ∉ got →
  (L1 ++ [items]) !! l = (L2 ++ [items]) !! l.
Proof.
  intros Hlen Hsame Hl.
  destruct (decide (l < length L1)%nat) as [Hlt|Hge].
  - rewrite !lookup_app_l by lia. by apply Hsame.
  - rewrite (lookup_app_r L1), (lookup_app_r L2) by lia. by rewrite Hlen.
Qed.

(** A call behaves the same in two worlds that differ only in lists handed
    out earlier, and the list it hands out is a new object. *)
Lemma sources_list_simulation self o got w1 w2 :
  py_apps w1 !! self = Some o →
  audio_sources o ∉ got →
  same_but_lists got w1 w2 →
  ∃ r w1' w2' got',
    CadmusBackendApp.sources_list self w1 = (r, w1') ∧
    CadmusBackendApp.sources_list self w2 = (r, w2') ∧
    same_but_lists got' w1' w2' ∧
    (audio_sources o ∉ got') ∧
    py_apps w1' !! self = Some o ∧
    match r with
    | Returned l => got' = got ++ [l]
    | Raised _ => got' = got
    end.
Proof.
  intros Ho Hc HR.
  destruct (same_but_lists_fields _ _ _ HR) as (Hsrc & Happs & Hsrv & Hlog).
  destruct HR as (Herased & Hlen & Hsame).
  assert (py_apps w2 !! self = Some o) as Ho2 by (by rewrite <- Happs).
  pose proof (Hsame _ Hc) as Hcache.
  destruct (py_lists w1 !! audio_sources o) as [[|i items]|] eqn:Hl.
  - assert (audio_sources o < length (py_lists w1))%nat as Hlt
      by (by eapply lookup_lt_Some).
    exists (Returned (S (length (py_lists w1)))),
      (query_world (audio_sources o) w1), (query_world (audio_sources o) w2),
      (got ++ [S (length (py_lists w1))]).
    split; [by apply sources_list_fresh|].
    split; [rewrite Hlen; by apply sources_list_fresh|].
    split; [|split; [|split]]; [| |done|done].
    + split; [by apply query_world_erased|]. split.
      * unfold query_world. simpl.
        rewrite !length_app, !length_insert, !length_app. simpl. lia.
      * intros l Hl'. unfold query_world. simpl. rewrite <- Hsrc, <- Hsrv.
        apply (lookup_after_query _ _ _ _ got); [done|done|done|].
        intros Hin. apply Hl'. apply elem_of_app. by left.
    + rewrite elem_of_app, list_elem_of_singleton. intros [?|?]; [done|lia].
  - assert (audio_sources o < length (py_lists w1))%nat as Hlt
      by (by eapply lookup_lt_Some).
    exists (Returned (length (py_lists w1))),
      (set_py_lists (py_lists w1 ++ [i :: items]) w1),
      (set_py_lists (py_lists w2 ++ [i :: items]) w2),
      (got ++ [length (py_lists w1)]).
    split; [by apply (sources_list_cached _ _ o)|].
    split; [rewrite Hlen; by apply (sources_list_cached _ _ o)|].
    split; [|split; [|split]]; [| |done|done].
    + split; [by rewrite !set_py_lists_twice|]. split.
      * simpl. rewrite !length_app. simpl. lia.
      * intros l Hl'. simpl.
        apply (lookup_after_copy _ _ _ got); [done|done|].
        intros Hin. apply Hl'. apply elem_of_app. by left.
    + rewrite elem_of_app, list_elem_of_singleton. intros [?|?]; [done|lia].
  - exists (Raised (SystemError "list")), w1, w2, got.
    split; [by apply (sources_list_dangling _ _ o)|].
    split; [by apply (sources_list_dangling _ _ o)|].
    split; [by split|]. by split.
Qed.

Lemma client_simulation self o steps : ∀ got w1 w2,
  py_apps w1 !! self = Some o →
  audio_sources o ∉ got →
  same_but_lists got w1 w2 →
  ∃ r w1' w2' got',
    client self steps got w1 = (r, w1') ∧
    client self (without_mutations steps) got w2 = (r, w2') ∧
    same_but_lists got' w1' w2' ∧
    (audio_sources o ∉ got') ∧
    py_apps w1' !! self = Some o.
Proof.
  induction steps as [|[|which new_items|ds] steps IH]; intros got w1 w2 Ho Hc HR.
  - exists (Returned got), w1, w2, got. repeat (split; [done|]). done.
  - destruct (sources_list_simulation self o got w1 w2 Ho Hc HR)
      as (r & w1' & w2' & got' & H1 & H2 & HR' & Hc' & Ho' & Hgot).
    cbn [client without_mutations]. unfold bind. rewrite H1, H2.
    destruct r as [l|e].
    + subst got'. apply IH; done.
    + exists (Raised e), w1', w2', got'. repeat (split; [done|]). done.
  - cbn [client without_mutations]. unfold bind at 1.
    destruct (got !! which) as [l|] eqn:Hw.
    + unfold list_assign, modify. apply IH; [done|done|].
      destruct HR as (Herased & Hlen & Hsame). split; [|split].
      * by rewrite set_py_lists_twice.
      * simpl. by rewrite length_insert.
      * intros l' Hl'. simpl. rewrite list_lookup_insert_ne; [by apply Hsame|].
        intros ->. apply Hl'. by eapply list_elem_of_lookup_2.
    + unfold ret. by apply IH.
  - cbn [client without_mutations]. unfold bind, modify.
    apply IH; [done|done|].
    destruct HR as (Herased & Hlen & Hsame). split; [|by split].
    destruct w1, w2. unfold set_py_lists in Herased. simpl in Herased.
    injection Herased; intros; subst. reflexivity.
Qed.

Lemma same_but_lists_refl w : same_but_lists [] w w.
Proof. by repeat split. Qed.

(** What [sources_list] hands out is a list object that did not exist
    before the call, holding what the cache holds. *)
Lemma sources_list_returns_new_copy self w l w' :
  CadmusBackendApp.sources_list self w = (Returned l, w') →
  ∃ o,
    py_apps w' !! self = Some o ∧
    (length (py_lists w) ≤ l)%nat ∧
    l ≠ audio_sources o ∧
    is_Some (py_lists w' !! l) ∧
    py_lists w' !! l = py_lists w' !! audio_sources o.
Proof.
  intros Hrun.
  destruct (py_apps w !! self) as [o|] eqn:Ho; last first.
  { unfold CadmusBackendApp.sources_list, bind, get_app in Hrun.
    by rewrite Ho in Hrun. }
  destruct (py_lists w !! audio_sources o) as [[|i items]|] eqn:Hl.
  - assert (audio_sources o < length (py_lists w))%nat as Hlt
      by (by eapply lookup_lt_Some).
    rewrite (sources_list_fresh _ _ o Ho Hl) in Hrun.
    injection Hrun as <- <-. exists o. unfold query_world. simpl.
    split; [done|]. split; [lia|]. split; [lia|].
    rewrite list_lookup_middle
      by (rewrite length_insert, length_app; simpl; lia).
    split; [eauto|].
    rewrite lookup_app_l by (rewrite length_insert, length_app; simpl; lia).
    by rewrite list_lookup_insert_eq by (rewrite length_app; simpl; lia).
  - assert (audio_sources o < length (py_lists w))%nat as Hlt
      by (by eapply lookup_lt_Some).
    rewrite (sources_list_cached _ _ o (i :: items) Ho Hl) in Hrun by done.
    injection Hrun as <- <-. exists o. simpl.
    split; [done|]. split; [lia|]. split; [lia|].
    rewrite list_lookup_middle by done. split; [eauto|].
    by rewrite (lookup_app_l_Some _ _ _ _ Hl).
  - rewrite (sources_list_dangling _ _ o Ho Hl) in Hrun. discriminate Hrun.
Qed.

(** C10: every list [sources_list] returns is a new list object with the
    cache's contents, and whatever a client does to the lists it was
    handed, between any calls and any changes of the server's device list,
    leaves the enumerator as if the client had not touched them: the calls
    return the same references, make the same server calls, and the cache
    holds the same elements and denotes the same devices. *)
Theorem cache_unaffected_by_client_mutation
    (w : World) (self : app_ref) (o : CadmusBackendApp_obj)
    (steps : list ClientStep) :
  py_apps w !! self = Some o →
  (∀ v l v', CadmusBackendApp.sources_list self v = (Returned l, v') →
             (length (py_lists v) ≤ l)%nat ∧
             py_lists v' !! l = cache_items v' self ∧
             is_Some (cache_items v' self)) ∧
  let mutated := client self steps [] w in
  let untouched := client self (without_mutations steps) [] w in
  mutated.1 = untouched.1 ∧
  cache_items mutated.2 self = cache_items untouched.2 self ∧
  cache_view mutated.2 self = cache_view untouched.2 self ∧
  srv_log mutated.2 = srv_log untouched.2.
Proof.
  intros Ho. split.
  - intros v l v' Hrun.
    destruct (sources_list_returns_new_copy _ _ _ _ Hrun)
      as (o' & Ho' & Hnew & _ & Hsome & Hsame).
    unfold cache_items. rewrite Ho'. split; [done|]. split; [done|].
    by rewrite <- Hsame.
  - cbv zeta.
    destruct (client_simulation self o steps [] w w Ho (not_elem_of_nil _)
                (same_but_lists_refl w))
      as (r & w1 & w2 & got & H1 & H2 & HR & Hc & Ho1).
    rewrite H1, H2. cbn [fst snd].
    destruct (same_but_lists_fields _ _ _ HR) as (Hsrc & Happs & _ & Hlog).
    destruct HR as (_ & _ & Hsame).
    split; [done|]. unfold cache_view, cache_items, list_view.
    rewrite <- Happs, Ho1, <- Hsrc, (Hsame _ Hc). by repeat split.
Qed.

Lemma cache_unaffected_by_client_mutation_witness :
  cache_view
    (client 0 [CallSourcesList; MutateReturned 0 []; CallSourcesList]
       [] started_world).2 0
  = cache_view
      (client 0 [CallSourcesList; CallSourcesList] [] started_world).2 0.
Proof.
  destruct (cache_unaffected_by_client_mutation started_world 0
              {| audio_sources := 0;
                 cadmus_lib_path := "/home/u/.cache/cadmus/librnnoise_ladspa.so";
                 app_context := demo_context |}
              [CallSourcesList; MutateReturned 0 []; CallSourcesList])
    as (_ & _ & _ & Hview & _); [vm_compute; reflexivity|].
  exact Hview.
Defined.

(** The copy is shallow: the source objects themselves are shared between
    the cache and every list handed out, so renaming one through a returned
    list shows in the cache. *)
Example shallow_copy_shares_elements :
  cache_view listed_world 0 = Some [mic0] ∧
  py_lists listed_world !! 2%nat = Some [0%nat] ∧
  cache_view (source_rename 0 "renamed" listed_world).2 0
  = Some [ {| name := "renamed"; description := "Built-in Mic" |} ].
Proof. split; [|split]; vm_compute; reflexivity. Qed.

(** * The plugin distributor *)

Lemma string_app_cons c a b : String c a +:+ b = String c (a +:+ b).
Proof. reflexivity. Qed.

Lemma string_app_nil b : "" +:+ b = b.
Proof. reflexivity. Qed.

Lemma string_length_app a b :
  String.length (a +:+ b) = (String.length a + String.length b)%nat.
Proof.
  induction a as [|c a IH]; [done|].
  rewrite string_app_cons. simpl. by rewrite IH.
Qed.

Lemma string_app_assoc a b c : (a +:+ b) +:+ c = a +:+ (b +:+ c).
Proof.
  induction a as [|x a IH]; [done|].
  by rewrite !string_app_cons, IH.
Qed.

Lemma ends_with_slash_app x c y :
  ends_with_slash (x +:+ String c y) = ends_with_slash (String c y).
Proof.
  induction x as [|a x IH]; [done|].
  rewrite string_app_cons, <- IH. by destruct x.
Qed.

Lemma before_last_slash_app d f :
  before_last_slash f = None →
  before_last_slash (d +:+ String "/" f) = Some d.
Proof.
  intros Hf. induction d as [|c d IH].
  - rewrite string_app_nil. simpl. by rewrite Hf.
  - rewrite string_app_cons. simpl. by rewrite IH.
Qed.

Lemma rstrip_slashes_id d : ends_with_slash d = false → rstrip_slashes d = d.
Proof.
  induction d as [|c d IH]; [done|]. intros H.
  cbn [rstrip_slashes]. destruct d as [|c' d'].
  - simpl in *. by rewrite H.
  - rewrite IH by exact H. by rewrite andb_false_r.
Qed.

Lemma cache_dir_form home : ∃ x, cache_dir home = x +:+ "cadmus".
Proof.
  unfold cache_dir, os_path_join. cbn [fold_left].
  generalize (path_join2 home ".cache"). intros p.
  unfold path_join2. cbn [starts_with_slash Ascii.eqb Bool.eqb andb].
  destruct (_ || _).
  - by exists p.
  - exists (p +:+ "/"). by rewrite string_app_assoc.
Qed.

Lemma cache_dir_no_trailing_slash home : ends_with_slash (cache_dir home) = false.
Proof.
  destruct (cache_dir_form home) as [x ->].
  by rewrite (ends_with_slash_app x "c" "admus").
Qed.

Lemma cache_dir_nonempty home : String.eqb (cache_dir home) "" = false.
Proof.
  destruct (cache_dir_form home) as [x ->]. apply String.eqb_neq.
  by destruct x.
Qed.

Lemma plugin_path_form home :
  plugin_path home = cache_dir home +:+ "/librnnoise_ladspa.so".
Proof.
  unfold plugin_path, os_path_join. cbn [fold_left]. unfold path_join2.
  cbn [starts_with_slash Ascii.eqb Bool.eqb andb].
  by rewrite cache_dir_nonempty, cache_dir_no_trailing_slash.
Qed.

Lemma plugin_path_dirname home : os_path_dirname (plugin_path home) = cache_dir home.
Proof.
  rewrite plugin_path_form. unfold os_path_dirname.
  rewrite (before_last_slash_app (cache_dir home) "librnnoise_ladspa.so")
    by reflexivity.
  rewrite rstrip_slashes_id by apply cache_dir_no_trailing_slash.
  by rewrite cache_dir_nonempty.
Qed.

Lemma plugin_path_longer home :
  (String.length (cache_dir home) < String.length (plugin_path home))%nat.
Proof. rewrite plugin_path_form, string_length_app. simpl. lia. Qed.

Lemma dir_prefixes_shorter rest : ∀ acc a,
  a ∈ dir_prefixes acc rest →
  (String.length a < String.length acc + String.length rest)%nat.
Proof.
  induction rest as [|c r IH]; intros acc a; simpl.
  - by rewrite elem_of_nil.
  - rewrite elem_of_app. intros [Ha|Ha].
    + destruct (_ && _); [|by apply elem_of_nil in Ha].
      apply list_elem_of_singleton in Ha as ->. lia.
    + apply IH in Ha. rewrite string_length_app in Ha. simpl in Ha. lia.
Qed.

Lemma plugin_path_not_above_cache home :
  plugin_path home ∉ ancestors (cache_dir home).
Proof.
  intros H. apply dir_prefixes_shorter in H. simpl in H.
  pose proof (plugin_path_longer home). lia.
Qed.

Lemma find_is_file_none w paths :
  Forall (λ a, fs_files w !! a = None) paths →
  List.find (is_file w) paths = None.
Proof.
  induction 1 as [|a paths Ha _ IH]; [done|]. simpl.
  unfold is_file at 1. rewrite Ha.
  rewrite bool_decide_eq_false_2 by apply is_Some_None. exact IH.
Qed.

Lemma bind_gets {A B} (f : World → A) (k : A → Py B) w :
  bind (gets f) k w = k (f w) w.
Proof. reflexivity. Qed.

Lemma set_fs_dirs_id w : set_fs_dirs (fs_dirs w) w = w.
Proof. by destruct w. Qed.

(** One run of the distributor in a world where nothing stands in its
    way. *)
Lemma drop_cadmus_binary_spec w self o home data :
  py_apps w !! self = Some o →
  environ w !! "HOME" = Some home →
  fs_files w !! bundled_plugin (app_context o) = Some data →
  bundled_plugin (app_context o) ≠ plugin_path home →
  fs_files w !! cache_dir home = None →
  plugin_path home ∉ fs_dirs w →
  (cache_dir home ∉ fs_dirs w →
   Forall (λ a, fs_files w !! a = None) (ancestors (cache_dir home))) →
  CadmusBackendApp.drop_cadmus_binary self w
  = (Returned tt, installed_world self o home data w).
Proof.
  intros Ho Hhome Hsrc Hne Hcache Hdst Hanc.
  assert (self < length (py_apps w))%nat as Hlt by (by eapply lookup_lt_Some).
  unfold CadmusBackendApp.drop_cadmus_binary.
  unfold bind at 1. unfold os_environ. rewrite Hhome.
  unfold os_path_exists at 1. rewrite bind_gets.
  change (os_path_join (os_path_join home [".cache"; "cadmus"])
            ["librnnoise_ladspa.so"]) with (plugin_path home).
  change (os_path_join home [".cache"; "cadmus"]) with (cache_dir home).
  assert (is_file w (cache_dir home) = false) as Hnf.
  { unfold is_file. rewrite Hcache. apply bool_decide_eq_false_2, is_Some_None. }
  rewrite Hnf, orb_false_r. unfold installed_world.
  set (dirs' := if decide (cache_dir home ∈ fs_dirs w) then fs_dirs w
                else fs_dirs w ∪ list_to_set (ancestors (cache_dir home))
                     ∪ {[cache_dir home]}).
  assert (cache_dir home ∈ dirs') as Hin.
  { unfold dirs'. destruct (decide _); [done|]. set_solver. }
  assert (plugin_path home ∉ dirs') as Hout.
  { unfold dirs'. destruct (decide _); [done|].
    rewrite !elem_of_union, elem_of_list_to_set, elem_of_singleton.
    intros [[?|?]|Heq]; [done|by apply (plugin_path_not_above_cache home)|].
    pose proof (plugin_path_longer home) as Hlen. rewrite Heq in Hlen. lia. }
  assert ((if is_dir w (cache_dir home) then ret tt
           else os_makedirs (cache_dir home)) w
          = (Returned tt, set_fs_dirs dirs' w)) as Hmk.
  { unfold is_dir, dirs'. destruct (decide (cache_dir home ∈ fs_dirs w)) as [Hd|Hd].
    - rewrite bool_decide_eq_true_2 by done. unfold ret.
      by rewrite set_fs_dirs_id.
    - rewrite bool_decide_eq_false_2 by done. unfold os_makedirs.
      unfold is_dir. rewrite bool_decide_eq_false_2 by done.
      rewrite Hnf. simpl. by rewrite (find_is_file_none _ _ (Hanc Hd)). }
  unfold bind at 1. rewrite Hmk.
  unfold set_cadmus_lib_path, bind, get_app, modify.
  cbn [py_apps set_fs_dirs set_py_apps]. rewrite Ho.
  cbn [py_apps set_fs_dirs set_py_apps].
  rewrite list_lookup_insert_eq by done.
  unfold get_resource, bind, os_path_exists, gets.
  cbn [app_context cadmus_lib_path].
  change (os_path_join (resource_dir (app_context o)) ["librnnoise_ladspa.so"])
    with (bundled_plugin (app_context o)).
  assert (∀ v, is_file v (bundled_plugin (app_context o))
               = bool_decide (is_Some (fs_files v !! bundled_plugin (app_context o))))
    as Hisf by done.
  rewrite Hisf. cbn [fs_files set_fs_dirs set_py_apps]. rewrite Hsrc.
  rewrite bool_decide_eq_true_2 by eauto. rewrite orb_true_r.
  unfold ret, shutil_copyfile. cbn [cadmus_lib_path with_lib_path].
  rewrite (proj2 (String.eqb_neq _ _) Hne).
  cbn [fs_files set_fs_dirs set_py_apps]. rewrite Hsrc.
  rewrite plugin_path_dirname.
  unfold is_dir, is_file. cbn [fs_dirs fs_files set_fs_dirs set_py_apps].
  rewrite (bool_decide_eq_false_2 _ Hout).
  rewrite Hcache, (bool_decide_eq_false_2 _ is_Some_None).
  rewrite (bool_decide_eq_true_2 _ Hin), orb_true_r.
  reflexivity.
Qed.

Lemma cache_dir_plain home :
  home ≠ "" → ends_with_slash home = false →
  cache_dir home = home +:+ "/.cache/cadmus" ∧
  plugin_path home = home +:+ "/.cache/cadmus/librnnoise_ladspa.so".
Proof.
  intros Hne Hslash.
  assert (cache_dir home = home +:+ "/.cache/cadmus") as Hc.
  { unfold cache_dir, os_path_join. cbn [fold_left]. unfold path_join2 at 2.
    cbn [starts_with_slash Ascii.eqb Bool.eqb andb].
    rewrite (proj2 (String.eqb_neq _ _) Hne), Hslash. cbn [orb].
    change ("/" +:+ ".cache") with "/.cache".
    unfold path_join2. cbn [starts_with_slash Ascii.eqb Bool.eqb andb].
    rewrite (ends_with_slash_app home "/" ".cache").
    assert (String.eqb (home +:+ "/.cache") "" = false) as ->.
    { apply String.eqb_neq. by destruct home. }
    cbn [orb]. change (ends_with_slash "/.cache") with false. cbn iota.
    by rewrite string_app_assoc. }
  split; [exact Hc|]. rewrite plugin_path_form, Hc. by rewrite string_app_assoc.
Qed.

(** C6: in a world where the bundle holds the plugin and nothing stands in
    the way (HOME is set, the cache path is not a regular file nor below
    one, the destination is not a directory), every run of the distributor
    returns normally with the cache directory [<home>/.cache/cadmus]
    present, created if it was absent, the bundled plugin copied over
    whatever was at the destination, and the destination recorded in the
    backend object.  A second run, made after the bundle's plugin changed,
    copies again: the destination then holds the bundle's new contents. *)
Theorem drop_cadmus_binary_installs_plugin
    (w : World) (self : app_ref) (o : CadmusBackendApp_obj)
    (home data data2 : string) :
  py_apps w !! self = Some o →
  environ w !! "HOME" = Some home →
  fs_files w !! bundled_plugin (app_context o) = Some data →
  bundled_plugin (app_context o) ≠ plugin_path home →
  fs_files w !! cache_dir home = None →
  plugin_path home ∉ fs_dirs w →
  (cache_dir home ∉ fs_dirs w →
   Forall (λ a, fs_files w !! a = None) (ancestors (cache_dir home))) →
  ∃ w1 w2,
    CadmusBackendApp.drop_cadmus_binary self w = (Returned tt, w1) ∧
    cache_dir home ∈ fs_dirs w1 ∧
    fs_dirs w ⊆ fs_dirs w1 ∧
    fs_files w1 = <[plugin_path home := data]> (fs_files w) ∧
    cadmus_lib_path <$> (py_apps w1 !! self) = Some (plugin_path home) ∧
    CadmusBackendApp.drop_cadmus_binary self (rebundle (app_context o) data2 w1)
      = (Returned tt, w2) ∧
    fs_files w2 !! plugin_path home = Some data2 ∧
    fs_files w2 !! bundled_plugin (app_context o) = Some data2 ∧
    cadmus_lib_path <$> (py_apps w2 !! self) = Some (plugin_path home) ∧
    (home ≠ "" → ends_with_slash home = false →
     cache_dir home = home +:+ "/.cache/cadmus" ∧
     plugin_path home = home +:+ "/.cache/cadmus/librnnoise_ladspa.so").
Proof.
  intros Ho Hhome Hsrc Hne Hcache Hdst Hanc.
  assert (self < length (py_apps w))%nat as Hlt by (by eapply lookup_lt_Some).
  pose proof (drop_cadmus_binary_spec w self o home data
                Ho Hhome Hsrc Hne Hcache Hdst Hanc) as Hrun1.
  set (w1 := installed_world self o home data w) in *.
  assert (cache_dir home ∈ fs_dirs w1) as Hin.
  { unfold w1, installed_world. cbn [fs_dirs set_fs_files set_py_apps set_fs_dirs].
    destruct (decide _); [done|]. set_solver. }
  assert (fs_dirs w ⊆ fs_dirs w1) as Hsub.
  { unfold w1, installed_world. cbn [fs_dirs set_fs_files set_py_apps set_fs_dirs].
    destruct (decide _); set_solver. }
  assert (plugin_path home ∉ fs_dirs w1) as Hout.
  { unfold w1, installed_world. cbn [fs_dirs set_fs_files set_py_apps set_fs_dirs].
    destruct (decide _); [done|].
    rewrite !elem_of_union, elem_of_list_to_set, elem_of_singleton.
    intros [[?|?]|Heq]; [done|by apply (plugin_path_not_above_cache home)|].
    pose proof (plugin_path_longer home) as Hlen. rewrite Heq in Hlen. lia. }
  assert (cache_dir home ≠ plugin_path home) as Hcp.
  { intros Heq. pose proof (plugin_path_longer home) as Hlen.
    rewrite Heq in Hlen. lia. }
  assert (cache_dir home ≠ bundled_plugin (app_context o)) as Hcb
    by (intros Heq; congruence).
  assert (py_apps w1 !! self = Some (with_lib_path o (plugin_path home))) as Ho1.
  { unfold w1, installed_world. cbn [py_apps set_fs_files set_py_apps set_fs_dirs].
    by rewrite list_lookup_insert_eq. }
  pose proof (drop_cadmus_binary_spec (rebundle (app_context o) data2 w1) self
                (with_lib_path o (plugin_path home)) home data2) as Hrun2.
  cbn [app_context with_lib_path] in Hrun2.
  exists w1, (installed_world self (with_lib_path o (plugin_path home)) home data2
                (rebundle (app_context o) data2 w1)).
  split; [exact Hrun1|]. split; [exact Hin|]. split; [exact Hsub|].
  split; [reflexivity|]. split; [by rewrite Ho1|].
  split.
  { apply Hrun2.
    - exact Ho1.
    - exact Hhome.
    - unfold rebundle. cbn [fs_files set_fs_files]. apply lookup_insert_eq.
    - exact Hne.
    - unfold rebundle, w1, installed_world.
      cbn [fs_files set_fs_files set_py_apps set_fs_dirs].
      rewrite !lookup_insert_ne by done. exact Hcache.
    - exact Hout.
    - intros Habs. by destruct Habs. }
  split.
  { unfold installed_world. cbn [fs_files set_fs_files]. apply lookup_insert_eq. }
  split.
  { unfold installed_world, rebundle. cbn [fs_files set_fs_files].
    rewrite lookup_insert_ne by done. apply lookup_insert_eq. }
  split.
  { unfold installed_world, rebundle.
    cbn [py_apps set_fs_files set_py_apps set_fs_dirs].
    rewrite list_lookup_insert_eq; [done|].
    unfold w1, installed_world. cbn [py_apps set_fs_files set_py_apps set_fs_dirs].
    by rewrite length_insert. }
  apply cache_dir_plain.
Qed.

Lemma drop_cadmus_binary_installs_plugin_witness :
  ∃ w1 w2,
    CadmusBackendApp.drop_cadmus_binary 0 unpacked_world = (Returned tt, w1) ∧
    "/home/u/.cache/cadmus" ∈ fs_dirs w1 ∧
    fs_files w1 !! "/home/u/.cache/cadmus/librnnoise_ladspa.so" = Some "RNNOISE-1" ∧
    CadmusBackendApp.drop_cadmus_binary 0 (rebundle demo_context "RNNOISE-2" w1)
      = (Returned tt, w2) ∧
    fs_files w2 !! "/home/u/.cache/cadmus/librnnoise_ladspa.so" = Some "RNNOISE-2".
Proof.
  destruct (drop_cadmus_binary_installs_plugin unpacked_world 0
              {| audio_sources := 0; cadmus_lib_path := "";
                 app_context := demo_context |}
              "/home/u" "RNNOISE-1" "RNNOISE-2")
    as (w1 & w2 & Hrun1 & Hdir & _ & Hfiles & _ & Hrun2 & Hdst & _).
  - vm_compute. reflexivity.
  - vm_compute. reflexivity.
  - vm_compute. reflexivity.
  - intros H. vm_compute in H. discriminate H.
  - vm_compute. reflexivity.
  - apply (proj1 (bool_decide_eq_false _)). vm_compute. reflexivity.
  - intros _.
    change (ancestors (cache_dir "/home/u"))
      with ["/home"; "/home/u"; "/home/u/.cache"].
    repeat (constructor; [vm_compute; reflexivity|]). constructor.
  - exists w1, w2. split; [exact Hrun1|]. split; [exact Hdir|].
    split; [rewrite Hfiles; apply lookup_insert_eq|].
    split; [exact Hrun2 | exact Hdst].
Defined.

(** * The command line *)

Lemma bind_returned_inv {A B} (m : Py A) (k : A → Py B) w b w' :
  bind m k w = (Returned b, w') →
  ∃ a w1, m w = (Returned a, w1) ∧ k a w1 = (Returned b, w').
Proof.
  unfold bind. destruct (m w) as [[a|e] w1]; [|done]. intros H. by exists a, w1.
Qed.

Lemma list_items_returned_inv l w items w' :
  list_items l w = (Returned items, w') →
  w' = w ∧ py_lists w !! l = Some items.
Proof.
  unfold list_items. destruct (py_lists w !! l); [|done].
  by intros [= -> ->].
Qed.

Lemma names_of_returned_inv items : ∀ w ns w',
  names_of items w = (Returned ns, w') →
  w' = w ∧ ∃ ds, mapM (λ r, py_sources w !! r) items = Some ds ∧ ns = name <$> ds.
Proof.
  induction items as [|r items IH]; intros w ns w'; simpl.
  - unfold ret. intros [= <- <-]. split; [done|]. by exists [].
  - unfold bind at 1. unfold get_source.
    destruct (py_sources w !! r) as [s|]; [|done].
    intros H. apply bind_returned_inv in H as (ns' & w1 & Htail & H).
    unfold ret in H. injection H as <- <-.
    apply IH in Htail as (-> & ds & Hds & ->).
    split; [done|]. exists (s :: ds). simpl. by rewrite Hds.
Qed.

(** What the parser lets through as an [enable] command. *)
Lemma parse_args_returned_inv choices argv w ns w' :
  parse_args choices argv w = (Returned ns, w') →
  w' = w ∧
  (cmd ns = Some "enable" →
   ∃ s, argv = ["enable"; s] ∧ source ns = Some s ∧ s ∈ choices).
Proof.
  unfold parse_args, ret, raise.
  destruct argv as [|sub rest]; [by intros [= <- <-]|].
  destruct (is_help sub); [done|].
  destruct (String.eqb sub "sources").
  { destruct rest; [by intros [= <- <-]|done]. }
  destruct (String.eqb sub "disable").
  { destruct rest; [by intros [= <- <-]|done]. }
  destruct (String.eqb sub "enable") eqn:Hsub; [|done].
  apply String.eqb_eq in Hsub as ->.
  destruct rest as [|a rest']; [done|].
  destruct (is_help a); [done|].
  destruct (option_like a); [done|].
  destruct (bool_decide (a ∈ choices)) eqn:Hin; [|done].
  apply bool_decide_eq_true in Hin.
  destruct rest' as [|b rest'']; [|done].
  intros [= <- <-]. split; [done|]. intros _. by exists a.
Qed.

Lemma parse_args_rejects_unlisted choices s w :
  s ∉ choices →
  ∃ code, parse_args choices ["enable"; s] w = (Raised (SystemExit code), w).
Proof.
  intros Hnot. unfold parse_args, raise.
  change (is_help "enable") with false.
  change (String.eqb "enable" "sources") with false.
  change (String.eqb "enable" "disable") with false.
  change (String.eqb "enable" "enable") with true. cbn iota.
  destruct (is_help s); [by eexists|].
  destruct (option_like s); [by eexists|].
  rewrite bool_decide_eq_false_2 by done. by eexists.
Qed.

(** C8: when the command line was accepted as an [enable] command, it was
    [enable <source>] with a source among the names the enumerator
    returned while the parser was built, which are the names it returns
    from then on; [run] then is [enable_noise_suppression] for that source
    with control level 50.  A source that is not among the names makes the
    parser exit. *)
Theorem cli_enable_uses_listed_source_and_level_50
    (context : ApplicationContext) (argv : list string) (w w' : World)
    (cli : CadmusApplicationCli_obj) :
  CadmusApplicationCli.__init__ context argv w = (Returned cli, w') →
  cmd (args cli) = Some "enable" →
  (∃ s ds,
     source (args cli) = Some s ∧
     enumerated w' (backend_app cli) = Some ds ∧
     s ∈ (name <$> ds) ∧
     CadmusApplicationCli.run cli
     = CadmusBackendApp.enable_noise_suppression (backend_app cli) s 50) ∧
  (∀ choices s v,
     s ∉ choices →
     ∃ code, parse_args choices ["enable"; s] v = (Raised (SystemExit code), v)).
Proof.
  intros Hinit Hcmd. split; [|intros; by apply parse_args_rejects_unlisted].
  unfold CadmusApplicationCli.__init__ in Hinit.
  apply bind_returned_inv in Hinit as (backend & w1 & _ & Hinit).
  apply bind_returned_inv in Hinit as (l & w2 & Hlist & Hinit).
  apply bind_returned_inv in Hinit as (items & w3 & Hitems & Hinit).
  apply bind_returned_inv in Hinit as (choices & w4 & Hnames & Hinit).
  apply bind_returned_inv in Hinit as (ns & w5 & Hparse & Hinit).
  unfold ret in Hinit. injection Hinit as <- <-.
  apply list_items_returned_inv in Hitems as (-> & Hitems).
  apply names_of_returned_inv in Hnames as (-> & ds & Hds & ->).
  apply parse_args_returned_inv in Hparse as (-> & Hparse).
  cbn [args backend_app] in *.
  destruct (Hparse Hcmd) as (s & _ & Hsource & Hin).
  destruct (sources_list_returns_new_copy _ _ _ _ Hlist)
    as (o & Ho & _ & _ & _ & Hcopy).
  rewrite Hitems in Hcopy.
  assert (cache_view w2 backend = Some ds) as Hcache.
  { unfold cache_view, list_view. by rewrite Ho, <- Hcopy. }
  exists s, ds. split; [done|]. split; [|split; [done|]].
  - unfold enumerated. rewrite Hcache. destruct ds; [|done].
    by apply elem_of_nil in Hin.
  - unfold CadmusApplicationCli.run. cbn [args backend_app].
    rewrite Hcmd, Hsource. reflexivity.
Qed.

Lemma cli_enable_uses_listed_source_and_level_50_witness :
  ∃ cli,
    (CadmusApplicationCli.__init__ demo_context ["enable"; "mic0"] boot_world).1
    = Returned cli ∧
    CadmusApplicationCli.run cli
    = CadmusBackendApp.enable_noise_suppression (backend_app cli) "mic0" 50.
Proof.
  exists {| backend_app := 0;
            args := {| cmd := Some "enable"; source := Some "mic0" |} |}.
  split; [vm_compute; reflexivity|].
  destruct (cli_enable_uses_listed_source_and_level_50 demo_context
              ["enable"; "mic0"] boot_world
              (CadmusApplicationCli.__init__ demo_context ["enable"; "mic0"]
                 boot_world).2
              {| backend_app := 0;
                 args := {| cmd := Some "enable"; source := Some "mic0" |} |})
    as [(s & ds & Hsource & _ & _ & Hrun) _];
    [vm_compute; reflexivity | reflexivity |].
  injection Hsource as <-. exact Hrun.
Defined.

(** * A complete session *)

(** The scenario of a first start: the enumerator reports one microphone;
    enabling it at level 30 loads the four modules with level 50;
    disabling sends the four unload lines and empties the module graph;
    enabling an unknown device raises and creates nothing. *)
Example session_scenario :
  let w1 := (CadmusBackendApp.enable_noise_suppression 0 "mic0" 30 started_world).2 in
  let w2 := (CadmusBackendApp.disable_noise_suppression 0 w1).2 in
  let r3 := CadmusBackendApp.enable_noise_suppression 0 "doesnotexist" 50 w2 in
  srv_modules w1 = session_modules "mic0" 50 "/home/u/.cache/cadmus/librnnoise_ladspa.so" ∧
  stdout w1 = ["Set suppression level to 50"] ∧
  srv_modules w2 = [] ∧
  drop (length (srv_log w1)) (srv_log w2)
    = CliConnect :: (CliWrite <$> unload_lines) ++ [CliClose] ∧
  r3.1 = Raised (Exception "Unknown mic name doesnotexist") ∧
  srv_log r3.2 = srv_log w2 ∧
  srv_modules r3.2 = [].
Proof. cbv zeta. repeat (split; [vm_compute; reflexivity|]). vm_compute. reflexivity. Qed.

Example parse_args_examples :
  (parse_args ["mic0"] ["enable"; "mic0"] boot_world).1
    = Returned {| cmd := Some "enable"; source := Some "mic0" |} ∧
  (parse_args ["mic0"] ["enable"; "usb1"] boot_world).1 = Raised (SystemExit 2) ∧
  (parse_args ["mic0"] ["enable"] boot_world).1 = Raised (SystemExit 2) ∧
  (parse_args ["mic0"] ["enable"; "--help"] boot_world).1 = Raised (SystemExit 0) ∧
  (parse_args ["mic0"] ["disable"] boot_world).1
    = Returned {| cmd := Some "disable"; source := None |} ∧
  (parse_args ["mic0"] [] boot_world).1
    = Returned {| cmd := None; source := None |}.
Proof. repeat (split; [vm_compute; reflexivity|]). vm_compute. reflexivity. Qed.

(** * Further properties *)

(** ** The CLI channel *)

Lemma for_each_cli_write cs : ∀ w,
  for_each cs (λ c, cli_write (c +:+ newline)) w =
  (Returned tt,
   set_srv_modules
     (server_exec_lines ((λ c, c +:+ newline) <$> cs) (srv_modules w))
     (set_srv_log (srv_log w ++ ((λ c, CliWrite (c +:+ newline)) <$> cs)) w)).
Proof.
  induction cs as [|c cs IH]; intros w.
  - cbn [for_each fmap list_fmap]. unfold ret, server_exec_lines. cbn [foldl].
    rewrite app_nil_r. by destruct w.
  - cbn [for_each]. unfold bind at 1. unfold cli_write at 1.
    unfold bind at 1. unfold log_call, modify. rewrite IH.
    cbn [srv_log srv_modules set_srv_log set_srv_modules fmap list_fmap].
    unfold server_exec_lines. cbn [foldl]. rewrite <- app_assoc. cbn [app].
    generalize (foldl (λ mods line, server_exec_line line mods)
                  (server_exec_line (c +:+ newline) (srv_modules w))
                  (list_fmap _ _ (λ c0, c0 +:+ newline) cs)).
    intros mods. by destruct w.
Qed.

(** X1: [cli_command] opens one connection, writes every command of the
    list, each followed by a line feed and in the list's order, and closes
    the connection; an empty list still connects and closes.  A single
    command given as a string is treated as the one-element list. *)
Theorem cli_command_writes_each_line_once (w : World) (cs : list string) (c : string) :
  CadmusPulseInterface.cli_command (inr cs) w =
  (Returned tt,
   set_srv_modules
     (server_exec_lines ((λ c, c +:+ newline) <$> cs) (srv_modules w))
     (set_srv_log
        (srv_log w ++ CliConnect :: ((λ c, CliWrite (c +:+ newline)) <$> cs)
                   ++ [CliClose]) w)) ∧
  CadmusPulseInterface.cli_command (inr []) w
  = (Returned tt, set_srv_log (srv_log w ++ [CliConnect; CliClose]) w) ∧
  CadmusPulseInterface.cli_command (inl c) w
  = CadmusPulseInterface.cli_command (inr [c]) w.
Proof.
  assert (∀ cs' : list string,
            CadmusPulseInterface.cli_command (inr cs') w =
            (Returned tt,
             set_srv_modules
               (server_exec_lines ((λ c, c +:+ newline) <$> cs') (srv_modules w))
               (set_srv_log
                  (srv_log w ++ CliConnect :: ((λ c, CliWrite (c +:+ newline)) <$> cs')
                             ++ [CliClose]) w))) as Hgen.
  { intros cs'. unfold CadmusPulseInterface.cli_command.
    unfold bind at 1. unfold cli_connect, log_call, modify.
    unfold bind at 1. rewrite for_each_cli_write.
    unfold cli_close, log_call, modify.
    cbn [srv_log srv_modules set_srv_log set_srv_modules].
    rewrite <- !app_assoc. cbn [app].
    generalize (server_exec_lines ((λ c0, c0 +:+ newline) <$> cs') (srv_modules w)).
    intros mods. by destruct w. }
  split; [apply Hgen|]. split; [|reflexivity].
  rewrite Hgen. cbn [fmap list_fmap app]. unfold server_exec_lines. cbn [foldl].
  by destruct w.
Qed.

(** ** Enabling and disabling in sequence *)

Lemma list_view_inv w l ds :
  list_view w l = Some ds →
  ∃ items, py_lists w !! l = Some items ∧
           mapM (λ r, py_sources w !! r) items = Some ds.
Proof.
  unfold list_view. destruct (py_lists w !! l) as [items|]; [|done].
  intros H. by exists items.
Qed.

(** [enable_noise_suppression] once the enumerator has handed out [l]. *)
Lemma enable_via_list w self l w1 ds o mic level :
  CadmusBackendApp.sources_list self w = (Returned l, w1) →
  list_view w1 l = Some ds →
  py_apps w1 !! self = Some o →
  CadmusBackendApp.enable_noise_suppression self mic level w =
  if bool_decide (mic ∉ (name <$> ds))
  then (Raised (Exception ("Unknown mic name " +:+ mic)), w1)
  else CadmusPulseInterface.load_modules mic level (cadmus_lib_path o) w1.
Proof.
  intros Hrun Hview Ho. destruct (list_view_inv _ _ _ Hview) as (items & Hl & Hds).
  unfold CadmusBackendApp.enable_noise_suppression.
  unfold bind at 1. rewrite Hrun.
  unfold bind at 1. unfold list_items. rewrite Hl.
  unfold bind at 1. rewrite (names_of_view _ _ _ Hds).
  destruct (bool_decide _); [done|].
  unfold bind, get_app. by rewrite Ho.
Qed.

(** The enumeration inside [enable_noise_suppression]: the world it leaves
    differs from the one it found only in the Python heap and in the log
    of a query made for an empty cache. *)
Lemma enable_listed_device w self o ds mic level :
  py_apps w !! self = Some o →
  enumerated w self = Some ds →
  mic ∈ (name <$> ds) →
  ∃ w1,
    CadmusBackendApp.enable_noise_suppression self mic level w
      = CadmusPulseInterface.load_modules mic level (cadmus_lib_path o) w1 ∧
    srv_log w1 =
      srv_log w ++ match cache_view w self with Some [] => [SourceList] | _ => [] end ∧
    srv_modules w1 = srv_modules w ∧
    srv_accepts w1 = srv_accepts w ∧
    stdout w1 = stdout w ∧
    py_apps w1 = py_apps w ∧
    cache_view w1 self = Some ds ∧
    ds ≠ [] ∧
    fs_files w1 = fs_files w.
Proof.
  intros Ho Hen Hin.
  assert (ds ≠ []) as Hne by (intros ->; by apply elem_of_nil in Hin).
  unfold enumerated in Hen.
  destruct (cache_view w self) as [[|d cached]|] eqn:Hc; [| |done].
  - injection Hen as <-.
    destruct (sources_list_miss w self Hc) as (o' & Ho' & Hlt & Hrun & Hview & Hcache).
    assert (o' = o) as -> by congruence.
    exists (query_world (audio_sources o) w).
    split; [|by repeat split].
    rewrite (enable_via_list _ _ _ _ _ o mic level Hrun Hview) by exact Ho.
    by rewrite bool_decide_eq_false_2 by (intros Hn; by apply Hn).
  - injection Hen as <-.
    destruct (sources_list_hit w self (d :: cached) Hc) as (items & Hrun & Hview & Hcache);
      [done|].
    exists (set_py_lists (py_lists w ++ [items]) w).
    split; [|split; [by rewrite app_nil_r|by repeat split]].
    rewrite (enable_via_list _ _ _ _ _ o mic level Hrun Hview) by exact Ho.
    by rewrite bool_decide_eq_false_2 by (intros Hn; by apply Hn).
Qed.

Lemma accepts_everything_never_refuses accepts ms : ∀ mods,
  (∀ mods' n a, accepts mods' n a = true) →
  first_refused accepts mods ms = None.
Proof.
  induction ms as [|m ms IH]; intros mods Hacc; [done|].
  cbn [first_refused]. rewrite Hacc, IH by done. done.
Qed.

(** Enabling a listed device on a server that refuses nothing. *)
Lemma enable_succeeds w self o ds mic level :
  py_apps w !! self = Some o →
  enumerated w self = Some ds →
  mic ∈ (name <$> ds) →
  accepts_everything w →
  ∃ w',
    CadmusBackendApp.enable_noise_suppression self mic level w = (Returned tt, w') ∧
    srv_log w' =
      srv_log w
      ++ match cache_view w self with Some [] => [SourceList] | _ => [] end
      ++ (load_call <$> session_modules mic (Z.max level 50) (cadmus_lib_path o)) ∧
    srv_modules w' =
      srv_modules w ++ session_modules mic (Z.max level 50) (cadmus_lib_path o) ∧
    stdout w' = stdout w ++ ["Set suppression level to " +:+ fmt_d (Z.max level 50)] ∧
    py_apps w' !! self = Some o ∧
    enumerated w' self = Some ds ∧
    cache_view w' self = Some ds ∧
    accepts_everything w' ∧
    fs_files w' = fs_files w.
Proof.
  intros Ho Hen Hin Hacc.
  destruct (enable_listed_device w self o ds mic level Ho Hen Hin)
    as (w1 & -> & Hlog & Hmods & Hsrv & Hout & Happs & Hcache & Hne & Hfiles).
  rewrite load_modules_spec. cbv zeta.
  rewrite accepts_everything_never_refuses by (rewrite Hsrv; apply Hacc).
  eexists. split; [reflexivity|].
  cbn [srv_log srv_modules stdout py_apps srv_accepts
       set_stdout set_srv_modules set_srv_log].
  rewrite Hlog, Hmods, Hout, Happs, <- app_assoc.
  assert (∀ a b c, cache_view (set_stdout a (set_srv_modules b (set_srv_log c w1))) self
                   = Some ds) as Hframe by (intros; exact Hcache).
  split; [done|]. split; [done|]. split; [done|]. split; [done|].
  split; [|split].
  - unfold enumerated. rewrite Hframe. by destruct ds.
  - apply Hframe.
  - split; [|exact Hfiles].
    unfold accepts_everything. cbn [srv_accepts set_stdout set_srv_modules set_srv_log].
    rewrite Hsrv. apply Hacc.
Qed.

Lemma unload_session_app a b :
  unload_session (a ++ b) = unload_session a ++ unload_session b.
Proof. unfold unload_session, unload_type. by rewrite !filter_app. Qed.

Lemma unload_session_modules mic level path :
  unload_session (session_modules mic level path) = [].
Proof. reflexivity. Qed.

Lemma unload_type_id n mods :
  Forall (λ m : LoadedModule, m.1 ≠ n) mods → unload_type n mods = mods.
Proof.
  induction 1 as [|m mods Hm _ IH]; [done|].
  unfold unload_type in *. rewrite filter_cons_True by done. by rewrite IH.
Qed.

Lemma unload_session_free mods : session_free mods → unload_session mods = mods.
Proof.
  intros H.
  assert (∀ n, n ∈ session_types → Forall (λ m : LoadedModule, m.1 ≠ n) mods) as Hn.
  { intros n Hin. eapply Forall_impl; [exact H|]. cbn beta.
    intros m Hm Heq. apply Hm. by rewrite Heq. }
  unfold unload_session.
  rewrite (unload_type_id "module-loopback" mods)
    by (apply Hn; unfold session_types; set_solver).
  rewrite (unload_type_id "module-null-sink" mods)
    by (apply Hn; unfold session_types; set_solver).
  rewrite (unload_type_id "module-ladspa-sink" mods)
    by (apply Hn; unfold session_types; set_solver).
  apply unload_type_id, Hn. unfold session_types. set_solver.
Qed.

Lemma disable_spec w self :
  CadmusBackendApp.disable_noise_suppression self w =
  (Returned tt,
   set_srv_modules (unload_session (srv_modules w))
     (set_srv_log
        (srv_log w ++ CliConnect :: (CliWrite <$> unload_lines) ++ [CliClose]) w)).
Proof.
  unfold CadmusBackendApp.disable_noise_suppression. by rewrite unload_modules_spec.
Qed.

(** X2: on a server that refuses nothing and holds no module of the four
    types, enabling a listed device and then disabling restores the
    server's module graph exactly: the session's four modules come and go,
    every other module stays, in its place. *)
Theorem enable_then_disable_restores_modules
    (w : World) (self : app_ref) (o : CadmusBackendApp_obj)
    (ds : list PulseSourceInfo) (mic_name : string) (control_level : Z) :
  py_apps w !! self = Some o →
  enumerated w self = Some ds →
  mic_name ∈ (name <$> ds) →
  accepts_everything w →
  session_free (srv_modules w) →
  ∃ w1 w2,
    CadmusBackendApp.enable_noise_suppression self mic_name control_level w
      = (Returned tt, w1) ∧
    CadmusBackendApp.disable_noise_suppression self w1 = (Returned tt, w2) ∧
    srv_modules w1 =
      srv_modules w
      ++ session_modules mic_name (Z.max control_level 50) (cadmus_lib_path o) ∧
    srv_modules w2 = srv_modules w.
Proof.
  intros Ho Hen Hin Hacc Hfree.
  destruct (enable_succeeds w self o ds mic_name control_level Ho Hen Hin Hacc)
    as (w1 & Hrun & _ & Hmods & _).
  eexists w1, _. split; [exact Hrun|]. split; [apply disable_spec|].
  split; [exact Hmods|].
  cbn [srv_modules set_srv_modules]. rewrite Hmods, unload_session_app.
  rewrite unload_session_modules, app_nil_r. by apply unload_session_free.
Qed.

Lemma enable_then_disable_restores_modules_witness :
  ∃ w1 w2,
    CadmusBackendApp.enable_noise_suppression 0 "mic0" 70
      (set_srv_modules [("module-alsa-card", "device_id=0")] started_world)
      = (Returned tt, w1) ∧
    CadmusBackendApp.disable_noise_suppression 0 w1 = (Returned tt, w2) ∧
    srv_modules w2 = [("module-alsa-card", "device_id=0")].
Proof.
  destruct (enable_then_disable_restores_modules
              (set_srv_modules [("module-alsa-card", "device_id=0")] started_world) 0
              {| audio_sources := 0;
                 cadmus_lib_path := "/home/u/.cache/cadmus/librnnoise_ladspa.so";
                 app_context := demo_context |}
              [mic0] "mic0" 70)
    as (w1 & w2 & H1 & H2 & _ & H3).
  - vm_compute. reflexivity.
  - vm_compute. reflexivity.
  - apply list_elem_of_here.
  - intros mods n a. reflexivity.
  - constructor; [|constructor].
    apply (proj1 (bool_decide_eq_false _)). vm_compute. reflexivity.
  - exists w1, w2. split; [exact H1|]. split; [exact H2 | exact H3].
Defined.

(** X3: nothing guards against enabling twice.  On a server that refuses
    nothing, a second [enable_noise_suppression] for a listed device loads
    the four modules a second time, after the first four, without asking
    the server for its devices again and without unloading anything; one
    disable then removes both chains. *)
Theorem enable_twice_loads_a_second_chain
    (w : World) (self : app_ref) (o : CadmusBackendApp_obj)
    (ds : list PulseSourceInfo) (mic_name : string) (control_level : Z) :
  let chain :=
    session_modules mic_name (Z.max control_level 50) (cadmus_lib_path o) in
  py_apps w !! self = Some o →
  enumerated w self = Some ds →
  mic_name ∈ (name <$> ds) →
  accepts_everything w →
  ∃ w1 w2 w3,
    CadmusBackendApp.enable_noise_suppression self mic_name control_level w
      = (Returned tt, w1) ∧
    CadmusBackendApp.enable_noise_suppression self mic_name control_level w1
      = (Returned tt, w2) ∧
    srv_modules w2 = srv_modules w ++ chain ++ chain ∧
    srv_log w2 = srv_log w1 ++ (load_call <$> chain) ∧
    CadmusBackendApp.disable_noise_suppression self w2 = (Returned tt, w3) ∧
    srv_modules w3 = unload_session (srv_modules w) ∧
    session_free (srv_modules w3).
Proof.
  intros chain Ho Hen Hin Hacc.
  destruct (enable_succeeds w self o ds mic_name control_level Ho Hen Hin Hacc)
    as (w1 & Hrun1 & _ & Hmods1 & _ & Ho1 & Hen1 & Hcache1 & Hacc1 & _).
  destruct (enable_succeeds w1 self o ds mic_name control_level Ho1 Hen1 Hin Hacc1)
    as (w2 & Hrun2 & Hlog2 & Hmods2 & _).
  eexists w1, w2, _. split; [exact Hrun1|]. split; [exact Hrun2|].
  split; [by rewrite Hmods2, Hmods1, <- app_assoc|].
  split.
  { rewrite Hlog2, Hcache1. destruct ds; [|done].
    by apply elem_of_nil in Hin. }
  split; [apply disable_spec|].
  cbn [srv_modules set_srv_modules]. rewrite Hmods2, Hmods1.
  rewrite !unload_session_app.
  fold chain. unfold chain at 1 2. rewrite !unload_session_modules, !app_nil_r.
  split; [done|]. apply unload_session_types_gone.
Qed.

Lemma enable_twice_loads_a_second_chain_witness :
  ∃ w1 w2,
    CadmusBackendApp.enable_noise_suppression 0 "mic0" 50 started_world
      = (Returned tt, w1) ∧
    CadmusBackendApp.enable_noise_suppression 0 "mic0" 50 w1 = (Returned tt, w2) ∧
    length (srv_modules w2) = 8%nat.
Proof.
  destruct (enable_twice_loads_a_second_chain started_world 0
              {| audio_sources := 0;
                 cadmus_lib_path := "/home/u/.cache/cadmus/librnnoise_ladspa.so";
                 app_context := demo_context |}
              [mic0] "mic0" 50)
    as (w1 & w2 & w3 & H1 & H2 & Hmods & _).
  - vm_compute. reflexivity.
  - vm_compute. reflexivity.
  - apply list_elem_of_here.
  - intros mods n a. reflexivity.
  - exists w1, w2. split; [exact H1|]. split; [exact H2|].
    rewrite Hmods. reflexivity.
Defined.

(** ** The plugin distributor's failures and repetitions *)

Ltac world_fields :=
  cbn [py_lists py_sources py_apps srv_sources srv_modules srv_accepts srv_log
       environ fs_dirs fs_files stdout
       set_py_lists set_py_sources set_py_apps set_srv_sources set_srv_modules
       set_srv_log set_fs_dirs set_fs_files set_stdout] in *.

Lemma fmap_audio_sources_insert (apps : list CadmusBackendApp_obj) self o path :
  apps !! self = Some o →
  audio_sources <$> <[self := {| audio_sources := audio_sources o;
                                 cadmus_lib_path := path;
                                 app_context := app_context o |}]> apps
  = audio_sources <$> apps.
Proof.
  intros Ho. rewrite list_fmap_insert. cbn [audio_sources].
  apply list_insert_id. by rewrite list_lookup_fmap, Ho.
Qed.

(** X4: whatever its outcome, a run of the distributor stays away from the
    audio server, the device cache and the program's output: it makes no
    server call, loads and unloads nothing, and leaves every list and
    source object as it was.  On the file system it only adds: no directory
    and no file that existed is gone afterwards. *)
Theorem drop_cadmus_binary_touches_only_files
    (w w' : World) (self : app_ref) (r : Outcome unit) :
  CadmusBackendApp.drop_cadmus_binary self w = (r, w') →
  srv_log w' = srv_log w ∧
  srv_modules w' = srv_modules w ∧
  srv_sources w' = srv_sources w ∧
  stdout w' = stdout w ∧
  py_lists w' = py_lists w ∧
  py_sources w' = py_sources w ∧
  audio_sources <$> py_apps w' = audio_sources <$> py_apps w ∧
  environ w' = environ w ∧
  fs_dirs w ⊆ fs_dirs w' ∧
  (∀ p, is_Some (fs_files w !! p) → is_Some (fs_files w' !! p)).
Proof.
  unfold CadmusBackendApp.drop_cadmus_binary, bind, os_environ, os_path_exists,
    gets, ret, raise, os_makedirs, set_cadmus_lib_path, bind, get_app, modify,
    get_resource, bind, os_path_exists, gets, ret, raise, shutil_copyfile.
  intros H. repeat case_match; simplify_eq; world_fields.
  all: repeat split.
  all: lazymatch goal with
       | |- _ <$> _ = _ => first [done | by eapply fmap_audio_sources_insert]
       | |- _ ⊆ _ => set_solver
       | |- ∀ p, is_Some _ → is_Some _ =>
           intros p Hp;
           first [ exact Hp
                 | apply lookup_insert_is_Some;
                   destruct (decide (cadmus_lib_path a2 = p)); [by left|by right] ]
       | |- _ => done
       end.
Qed.

Lemma drop_cadmus_binary_touches_only_files_witness :
  srv_log (CadmusBackendApp.drop_cadmus_binary 0 unbundled_world).2
    = srv_log unbundled_world ∧
  py_lists (CadmusBackendApp.drop_cadmus_binary 0 unbundled_world).2
    = py_lists unbundled_world ∧
  fs_dirs unbundled_world
    ⊆ fs_dirs (CadmusBackendApp.drop_cadmus_binary 0 unbundled_world).2.
Proof.
  destruct (drop_cadmus_binary_touches_only_files unbundled_world
              (CadmusBackendApp.drop_cadmus_binary 0 unbundled_world).2 0
              (CadmusBackendApp.drop_cadmus_binary 0 unbundled_world).1)
    as (Hlog & _ & _ & _ & Hlists & _ & _ & _ & Hdirs & _).
  - by destruct (CadmusBackendApp.drop_cadmus_binary 0 unbundled_world).
  - split; [exact Hlog|]. split; [exact Hlists | exact Hdirs].
Defined.

(** X5: without [HOME] in the environment nothing of the program works,
    [disable] included: the distributor raises [KeyError] before touching
    the file system, so constructing the backend fails, and the command
    line, which constructs the backend before it looks at its arguments,
    fails the same way for every command line, without a single call to
    the audio server. *)
Theorem no_home_no_service
    (w : World) (self : app_ref) (context : ApplicationContext)
    (argv : list string) :
  environ w !! "HOME" = None →
  CadmusBackendApp.drop_cadmus_binary self w = (Raised (KeyError "HOME"), w) ∧
  CadmusBackendApp.__init__ context w
    = (Raised (KeyError "HOME"), allocated_world context w) ∧
  main context argv w = (Raised (KeyError "HOME"), allocated_world context w) ∧
  srv_log (allocated_world context w) = srv_log w ∧
  srv_modules (allocated_world context w) = srv_modules w ∧
  fs_dirs (allocated_world context w) = fs_dirs w ∧
  fs_files (allocated_world context w) = fs_files w.
Proof.
  intros Hhome.
  assert (∀ v s, environ v !! "HOME" = None →
                 CadmusBackendApp.drop_cadmus_binary s v = (Raised (KeyError "HOME"), v))
    as Hdrop.
  { intros v s Hv. unfold CadmusBackendApp.drop_cadmus_binary.
    unfold bind at 1. unfold os_environ. by rewrite Hv. }
  assert (CadmusBackendApp.__init__ context w
          = (Raised (KeyError "HOME"), allocated_world context w)) as Hinit.
  { unfold CadmusBackendApp.__init__.
    unfold bind at 1. unfold new_list. unfold bind at 1. unfold new_app.
    unfold bind at 1. world_fields. rewrite Hdrop by exact Hhome. reflexivity. }
  split; [by apply Hdrop|]. split; [exact Hinit|]. split; [|by repeat split].
  unfold main, CadmusApplicationCli.__init__.
  unfold bind at 1. unfold bind at 1. by rewrite Hinit.
Qed.

Lemma no_home_no_service_witness :
  main demo_context ["disable"] homeless_world
  = (Raised (KeyError "HOME"), allocated_world demo_context homeless_world) ∧
  srv_modules (allocated_world demo_context homeless_world)
  = [("module-loopback", "source=a sink=b")].
Proof.
  destruct (no_home_no_service homeless_world 0 demo_context ["disable"])
    as (_ & _ & Hmain & _ & Hmods & _); [vm_compute; reflexivity|].
  split; [exact Hmain | exact Hmods].
Defined.

Lemma ensure_cache_dir w home :
  fs_files w !! cache_dir home = None →
  (cache_dir home ∉ fs_dirs w →
   Forall (λ a, fs_files w !! a = None) (ancestors (cache_dir home))) →
  bind (os_path_exists (cache_dir home))
    (λ found : bool, if found then ret tt else os_makedirs (cache_dir home)) w
  = (Returned tt, set_fs_dirs (dirs_with_cache home w) w).
Proof.
  intros Hcache Hanc. unfold os_path_exists. rewrite bind_gets.
  assert (is_file w (cache_dir home) = false) as Hnf.
  { unfold is_file. rewrite Hcache. apply bool_decide_eq_false_2, is_Some_None. }
  rewrite Hnf, orb_false_r. unfold is_dir, dirs_with_cache.
  destruct (decide (cache_dir home ∈ fs_dirs w)) as [Hd|Hd].
  - rewrite bool_decide_eq_true_2 by done. unfold ret. by rewrite set_fs_dirs_id.
  - rewrite bool_decide_eq_false_2 by done. unfold os_makedirs, is_dir.
    rewrite bool_decide_eq_false_2 by done. rewrite Hnf. cbn [orb].
    by rewrite (find_is_file_none _ _ (Hanc Hd)).
Qed.

(** X6: the destination is recorded and the cache directory made before
    the bundle is looked at.  When the bundle has no plugin, the distributor
    raises [FileNotFoundError] with the cache directory in place and
    [cadmus_lib_path] already pointing at a file that was not written: the
    files are exactly as before. *)
Theorem drop_cadmus_binary_without_bundle
    (w : World) (self : app_ref) (o : CadmusBackendApp_obj) (home : string) :
  py_apps w !! self = Some o →
  environ w !! "HOME" = Some home →
  fs_files w !! cache_dir home = None →
  (cache_dir home ∉ fs_dirs w →
   Forall (λ a, fs_files w !! a = None) (ancestors (cache_dir home))) →
  fs_files w !! bundled_plugin (app_context o) = None →
  bundled_plugin (app_context o) ∉ dirs_with_cache home w →
  ∃ w',
    CadmusBackendApp.drop_cadmus_binary self w
      = (Raised (FileNotFoundError "librnnoise_ladspa.so"), w') ∧
    cache_dir home ∈ fs_dirs w' ∧
    cadmus_lib_path <$> (py_apps w' !! self) = Some (plugin_path home) ∧
    fs_files w' = fs_files w.
Proof.
  intros Ho Hhome Hcache Hanc Hsrc Hnodir.
  assert (self < length (py_apps w))%nat as Hlt by (by eapply lookup_lt_Some).
  unfold CadmusBackendApp.drop_cadmus_binary.
  unfold bind at 1. unfold os_environ. rewrite Hhome.
  change (os_path_join (os_path_join home [".cache"; "cadmus"])
            ["librnnoise_ladspa.so"]) with (plugin_path home).
  change (os_path_join home [".cache"; "cadmus"]) with (cache_dir home).
  pose proof (ensure_cache_dir w home Hcache Hanc) as Hmk.
  unfold bind at 1 in Hmk. unfold bind at 1.
  destruct (os_path_exists (cache_dir home) w) as [[found|e] v]; [|done].
  unfold bind at 1. rewrite Hmk.
  unfold set_cadmus_lib_path, bind, get_app, modify. world_fields.
  rewrite Ho. world_fields. rewrite list_lookup_insert_eq by done.
  unfold get_resource, bind, os_path_exists, gets. cbn [app_context].
  change (os_path_join (resource_dir (app_context o)) ["librnnoise_ladspa.so"])
    with (bundled_plugin (app_context o)).
  unfold is_dir, is_file. world_fields. rewrite Hsrc.
  rewrite (bool_decide_eq_false_2 _ Hnodir).
  rewrite (bool_decide_eq_false_2 _ is_Some_None). cbn [orb]. unfold raise.
  eexists. split; [reflexivity|]. world_fields.
  split; [|split; [by rewrite list_lookup_insert_eq|done]].
  unfold dirs_with_cache. destruct (decide _); [done|set_solver].
Qed.

Lemma drop_cadmus_binary_without_bundle_witness :
  ∃ w',
    CadmusBackendApp.drop_cadmus_binary 0 unbundled_world
      = (Raised (FileNotFoundError "librnnoise_ladspa.so"), w') ∧
    "/home/u/.cache/cadmus" ∈ fs_dirs w' ∧
    cadmus_lib_path <$> (py_apps w' !! 0%nat)
    = Some "/home/u/.cache/cadmus/librnnoise_ladspa.so".
Proof.
  destruct (drop_cadmus_binary_without_bundle unbundled_world 0
              {| audio_sources := 0; cadmus_lib_path := "";
                 app_context := demo_context |} "/home/u")
    as (w' & Hrun & Hdir & Hpath & _).
  - vm_compute. reflexivity.
  - vm_compute. reflexivity.
  - vm_compute. reflexivity.
  - intros _.
    change (ancestors (cache_dir "/home/u"))
      with ["/home"; "/home/u"; "/home/u/.cache"].
    repeat (constructor; [vm_compute; reflexivity|]). constructor.
  - vm_compute. reflexivity.
  - apply (proj1 (bool_decide_eq_false _)). vm_compute. reflexivity.
  - exists w'. split; [exact Hrun|]. split; [exact Hdir | exact Hpath].
Defined.

Lemma cache_dir_not_plugin_path home : cache_dir home ≠ plugin_path home.
Proof.
  intros Heq. pose proof (plugin_path_longer home) as Hlen.
  rewrite <- Heq in Hlen. lia.
Qed.

Lemma plugin_path_not_in_dirs_with_cache home w :
  plugin_path home ∉ fs_dirs w → plugin_path home ∉ dirs_with_cache home w.
Proof.
  intros Hdst. unfold dirs_with_cache. destruct (decide _); [done|].
  rewrite !elem_of_union, elem_of_list_to_set, elem_of_singleton.
  intros [[?|?]|Heq]; [done|by apply (plugin_path_not_above_cache home)|].
  by apply (cache_dir_not_plugin_path home).
Qed.

Lemma cache_dir_in_dirs_with_cache home w : cache_dir home ∈ dirs_with_cache home w.
Proof. unfold dirs_with_cache. destruct (decide _); [done|set_solver]. Qed.

(** X7: the distributor is idempotent.  After a run that succeeded, a
    second run with the bundle unchanged succeeds too and leaves the world
    exactly as the first run left it. *)
Theorem drop_cadmus_binary_idempotent
    (w : World) (self : app_ref) (o : CadmusBackendApp_obj)
    (home data : string) :
  py_apps w !! self = Some o →
  environ w !! "HOME" = Some home →
  fs_files w !! bundled_plugin (app_context o) = Some data →
  bundled_plugin (app_context o) ≠ plugin_path home →
  fs_files w !! cache_dir home = None →
  plugin_path home ∉ fs_dirs w →
  (cache_dir home ∉ fs_dirs w →
   Forall (λ a, fs_files w !! a = None) (ancestors (cache_dir home))) →
  ∃ w1,
    CadmusBackendApp.drop_cadmus_binary self w = (Returned tt, w1) ∧
    CadmusBackendApp.drop_cadmus_binary self w1 = (Returned tt, w1).
Proof.
  intros Ho Hhome Hsrc Hne Hcache Hdst Hanc.
  assert (self < length (py_apps w))%nat as Hlt by (by eapply lookup_lt_Some).
  exists (installed_world self o home data w).
  split; [by apply drop_cadmus_binary_spec|].
  pose proof (cache_dir_in_dirs_with_cache home w) as Hin.
  pose proof (plugin_path_not_in_dirs_with_cache home w Hdst) as Hout.
  pose proof (cache_dir_not_plugin_path home) as Hcp.
  rewrite (drop_cadmus_binary_spec (installed_world self o home data w) self
             (with_lib_path o (plugin_path home)) home data).
  - f_equal. unfold installed_world at 1. unfold installed_world.
    fold (dirs_with_cache home w). world_fields.
    rewrite decide_True by exact Hin.
    rewrite insert_insert_eq, list_insert_insert_eq.
    by destruct w.
  - unfold installed_world. world_fields. by rewrite list_lookup_insert_eq.
  - exact Hhome.
  - unfold installed_world. world_fields. cbn [app_context with_lib_path].
    by rewrite lookup_insert_ne.
  - exact Hne.
  - unfold installed_world. world_fields. by rewrite lookup_insert_ne.
  - unfold installed_world. fold (dirs_with_cache home w). world_fields. exact Hout.
  - unfold installed_world. fold (dirs_with_cache home w). world_fields.
    intros Habs. by destruct Habs.
Qed.

Lemma drop_cadmus_binary_idempotent_witness :
  ∃ w1,
    CadmusBackendApp.drop_cadmus_binary 0 unpacked_world = (Returned tt, w1) ∧
    CadmusBackendApp.drop_cadmus_binary 0 w1 = (Returned tt, w1).
Proof.
  apply (drop_cadmus_binary_idempotent unpacked_world 0
           {| audio_sources := 0; cadmus_lib_path := "";
              app_context := demo_context |} "/home/u" "RNNOISE-1").
  - vm_compute. reflexivity.
  - vm_compute. reflexivity.
  - vm_compute. reflexivity.
  - intros H. vm_compute in H. discriminate H.
  - vm_compute. reflexivity.
  - apply (proj1 (bool_decide_eq_false _)). vm_compute. reflexivity.
  - intros _.
    change (ancestors (cache_dir "/home/u"))
      with ["/home"; "/home/u"; "/home/u/.cache"].
    repeat (constructor; [vm_compute; reflexivity|]). constructor.
Defined.

(** ** Starting up *)

Lemma backend_init_spec ctx home data w :
  can_start ctx home data w →
  CadmusBackendApp.__init__ ctx w
  = (Returned (length (py_apps w)), backend_world ctx home data w).
Proof.
  intros (Hhome & Hsrc & Hne & Hcache & Hdst & Hanc).
  unfold CadmusBackendApp.__init__.
  unfold bind at 1. unfold new_list. unfold bind at 1. unfold new_app.
  world_fields. unfold bind at 1.
  change (set_py_apps _ (set_py_lists _ w)) with (allocated_world ctx w).
  rewrite (drop_cadmus_binary_spec (allocated_world ctx w) (length (py_apps w))
             {| audio_sources := length (py_lists w); cadmus_lib_path := "";
                app_context := ctx |} home data); [reflexivity|..]; try done.
  unfold allocated_world. world_fields. by apply list_lookup_middle.
Qed.

Lemma backend_world_facts ctx home data w :
  py_apps (backend_world ctx home data w)
    = py_apps w ++ [started_backend ctx home w] ∧
  py_lists (backend_world ctx home data w) = py_lists w ++ [[]] ∧
  py_sources (backend_world ctx home data w) = py_sources w ∧
  srv_sources (backend_world ctx home data w) = srv_sources w ∧
  srv_modules (backend_world ctx home data w) = srv_modules w ∧
  srv_accepts (backend_world ctx home data w) = srv_accepts w ∧
  srv_log (backend_world ctx home data w) = srv_log w ∧
  stdout (backend_world ctx home data w) = stdout w ∧
  fs_files (backend_world ctx home data w)
    = <[plugin_path home := data]> (fs_files w) ∧
  cache_view (backend_world ctx home data w) (length (py_apps w)) = Some [].
Proof.
  assert (py_apps (backend_world ctx home data w)
          = py_apps w ++ [started_backend ctx home w]) as Happs.
  { unfold backend_world, installed_world, allocated_world. world_fields.
    rewrite insert_app_r_alt by done. by rewrite Nat.sub_diag. }
  split; [exact Happs|]. repeat (split; [reflexivity|]).
  unfold cache_view, list_view. rewrite Happs.
  rewrite list_lookup_middle by done. cbn [audio_sources started_backend].
  change (py_lists (backend_world ctx home data w)) with (py_lists w ++ [[]]).
  by rewrite list_lookup_middle.
Qed.

(** X8: on a machine where the program can start, constructing the backend
    returns a new object that knows the plugin's destination and has an
    empty device cache, so its first enumeration will ask the server; the
    construction itself makes no server call, prints nothing and leaves
    every other Python object as it was. *)
Theorem backend_starts_with_an_empty_cache
    (context : ApplicationContext) (home data : string) (w : World) :
  can_start context home data w →
  ∃ self w',
    CadmusBackendApp.__init__ context w = (Returned self, w') ∧
    py_apps w' = py_apps w ++ [started_backend context home w] ∧
    py_apps w' !! self = Some (started_backend context home w) ∧
    cache_view w' self = Some [] ∧
    enumerated w' self = Some (srv_sources w) ∧
    fs_files w' !! plugin_path home = Some data ∧
    srv_log w' = srv_log w ∧
    srv_modules w' = srv_modules w ∧
    stdout w' = stdout w.
Proof.
  intros Hstart.
  destruct (backend_world_facts context home data w)
    as (Happs & _ & _ & Hsrv & Hmods & _ & Hlog & Hout & Hfiles & Hcache).
  exists (length (py_apps w)), (backend_world context home data w).
  split; [by apply backend_init_spec|]. split; [exact Happs|].
  split; [rewrite Happs; by apply list_lookup_middle|].
  split; [exact Hcache|].
  split; [unfold enumerated; by rewrite Hcache, Hsrv|].
  split; [rewrite Hfiles; apply lookup_insert_eq|]. done.
Qed.

Lemma boot_world_can_start : can_start demo_context "/home/u" "RNNOISE-1" boot_world.
Proof.
  split; [vm_compute; reflexivity|]. split; [vm_compute; reflexivity|].
  split; [intros H; vm_compute in H; discriminate H|].
  split; [vm_compute; reflexivity|].
  split; [apply (proj1 (bool_decide_eq_false _)); vm_compute; reflexivity|].
  intros _.
  change (ancestors (cache_dir "/home/u"))
    with ["/home"; "/home/u"; "/home/u/.cache"].
  repeat (constructor; [vm_compute; reflexivity|]). constructor.
Defined.

Lemma backend_starts_with_an_empty_cache_witness :
  ∃ self w',
    CadmusBackendApp.__init__ demo_context boot_world = (Returned self, w') ∧
    cache_view w' self = Some [] ∧
    srv_log w' = [].
Proof.
  destruct (backend_starts_with_an_empty_cache demo_context "/home/u" "RNNOISE-1"
              boot_world boot_world_can_start)
    as (self & w' & Hrun & _ & _ & Hcache & _ & _ & Hlog & _).
  exists self, w'. split; [exact Hrun|]. split; [exact Hcache | exact Hlog].
Defined.

(** ** The command line, from start to end *)

Lemma parse_args_world choices argv w : (parse_args choices argv w).2 = w.
Proof. unfold parse_args, ret, raise. by repeat case_match. Qed.

Lemma cli_world_facts ctx home data w :
  py_apps (cli_world ctx home data w) !! length (py_apps w)
    = Some (started_backend ctx home w) ∧
  srv_sources (cli_world ctx home data w) = srv_sources w ∧
  srv_modules (cli_world ctx home data w) = srv_modules w ∧
  srv_accepts (cli_world ctx home data w) = srv_accepts w ∧
  srv_log (cli_world ctx home data w) = srv_log w ++ [SourceList] ∧
  stdout (cli_world ctx home data w) = stdout w ∧
  fs_files (cli_world ctx home data w) = <[plugin_path home := data]> (fs_files w) ∧
  cache_view (cli_world ctx home data w) (length (py_apps w))
    = Some (srv_sources w).
Proof.
  destruct (backend_world_facts ctx home data w)
    as (Happs & Hlists & Hsrc & Hsrv & Hmods & Hacc & Hlog & Hout & Hfiles & Hcache).
  destruct (sources_list_miss _ _ Hcache) as (o & Ho & _ & _ & _ & Hcv).
  rewrite Happs, list_lookup_middle in Ho by done. injection Ho as <-.
  cbn [audio_sources started_backend] in Hcv. rewrite Hsrv in Hcv.
  unfold cli_world, query_world. world_fields.
  rewrite Happs, Hsrv, Hmods, Hacc, Hlog, Hout, Hfiles.
  split; [by apply list_lookup_middle|]. by repeat split.
Qed.

(** Building the command line on a machine where the program can start:
    the backend is constructed, its enumerator is asked for the choices,
    and only then the arguments are parsed. *)
Lemma cli_init_spec ctx home data w argv :
  can_start ctx home data w →
  CadmusApplicationCli.__init__ ctx argv w =
  match (parse_args (name <$> srv_sources w) argv (cli_world ctx home data w)).1 with
  | Returned ns =>
      (Returned {| backend_app := length (py_apps w); args := ns |},
       cli_world ctx home data w)
  | Raised e => (Raised e, cli_world ctx home data w)
  end.
Proof.
  intros Hstart.
  destruct (backend_world_facts ctx home data w)
    as (Happs & Hlists & Hsrc & Hsrv & _ & _ & _ & _ & _ & Hcache).
  destruct (sources_list_miss _ _ Hcache) as (o & Ho & _ & Hrun & Hview & _).
  rewrite Happs, list_lookup_middle in Ho by done. injection Ho as <-.
  cbn [audio_sources started_backend] in Hrun, Hview.
  change (query_world (length (py_lists w)) (backend_world ctx home data w))
    with (cli_world ctx home data w) in Hrun, Hview.
  rewrite Hsrv in Hview.
  destruct (list_view_inv _ _ _ Hview) as (items & Hl & Hds).
  unfold CadmusApplicationCli.__init__.
  unfold bind at 1. rewrite (backend_init_spec ctx home data w Hstart).
  unfold bind at 1. rewrite Hrun.
  unfold bind at 1. unfold list_items. rewrite Hl.
  unfold bind at 1. rewrite (names_of_view _ _ _ Hds).
  unfold bind, ret.
  pose proof (parse_args_world (name <$> srv_sources w) argv
                (cli_world ctx home data w)) as Hpure.
  destruct (parse_args _ argv _) as [[ns|e] v]; cbn [fst snd] in *; by subst.
Qed.



(** X10: started without a sub-command, the program does its start-up (the
    plugin is copied, the server is asked for its devices) and returns
    without doing anything else: nothing is loaded, unloaded or printed. *)
Theorem no_subcommand_only_starts_up
    (context : ApplicationContext) (home data : string) (w : World) :
  can_start context home data w →
  ∃ w',
    main context [] w = (Returned tt, w') ∧
    fs_files w' !! plugin_path home = Some data ∧
    srv_log w' = srv_log w ++ [SourceList] ∧
    srv_modules w' = srv_modules w ∧
    stdout w' = stdout w.
Proof.
  intros Hstart.
  destruct (cli_world_facts context home data w)
    as (_ & _ & Hmods & _ & Hlog & Hout & Hfiles & _).
  exists (cli_world context home data w). split.
  - unfold main. unfold bind. by rewrite (cli_init_spec _ home data) by done.
  - split; [rewrite Hfiles; apply lookup_insert_eq|]. done.
Qed.

Lemma no_subcommand_only_starts_up_witness :
  ∃ w',
    main demo_context [] boot_world = (Returned tt, w') ∧
    srv_log w' = [SourceList] ∧
    srv_modules w' = [] ∧
    stdout w' = [].
Proof.
  destruct (no_subcommand_only_starts_up demo_context "/home/u" "RNNOISE-1"
              boot_world boot_world_can_start)
    as (w' & Hrun & _ & Hlog & Hmods & Hout).
  exists w'. split; [exact Hrun|]. split; [exact Hlog|].
  split; [exact Hmods | exact Hout].
Defined.

Lemma parse_args_accepts_listed choices s w :
  s ∈ choices → is_help s = false → option_like s = false →
  parse_args choices ["enable"; s] w
  = (Returned {| cmd := Some "enable"; source := Some s |}, w).
Proof.
  intros Hin Hhelp Hopt. unfold parse_args, ret.
  change (is_help "enable") with false.
  change (String.eqb "enable" "sources") with false.
  change (String.eqb "enable" "disable") with false.
  change (String.eqb "enable" "enable") with true. cbn iota.
  rewrite Hhelp, Hopt. by rewrite bool_decide_eq_true_2.
Qed.

Lemma parse_args_enable_needs_choices rest w :
  ∃ code, parse_args [] ("enable" :: rest) w = (Raised (SystemExit code), w).
Proof.
  unfold parse_args, raise.
  change (is_help "enable") with false.
  change (String.eqb "enable" "sources") with false.
  change (String.eqb "enable" "disable") with false.
  change (String.eqb "enable" "enable") with true. cbn iota.
  destruct rest as [|a rest]; [by eexists|].
  destruct (is_help a); [by eexists|].
  destruct (option_like a); [by eexists|].
  rewrite bool_decide_eq_false_2 by apply not_elem_of_nil. by eexists.
Qed.

(** X11: [enable <source>] from a first start.  On a machine where the
    program can start, with a server that refuses nothing, the command line
    [enable s] for a device [s] the server lists (and that argparse does not
    read as an option) copies the plugin, asks the server for its devices
    once, and loads the four modules for [s] with the plugin at its cache
    path and control level 50, reporting the level on standard output. *)
Theorem main_enable_from_first_start
    (context : ApplicationContext) (home data : string) (w : World)
    (s : string) :
  can_start context home data w →
  accepts_everything w →
  s ∈ (name <$> srv_sources w) →
  is_help s = false →
  option_like s = false →
  ∃ w',
    main context ["enable"; s] w = (Returned tt, w') ∧
    fs_files w' !! plugin_path home = Some data ∧
    srv_log w' =
      srv_log w ++ SourceList
        :: (load_call <$> session_modules s 50 (plugin_path home)) ∧
    srv_modules w' = srv_modules w ++ session_modules s 50 (plugin_path home) ∧
    stdout w' = stdout w ++ ["Set suppression level to 50"].
Proof.
  intros Hstart Hacc Hin Hhelp Hopt.
  destruct (cli_world_facts context home data w)
    as (Ho & Hsrv & Hmods & Haccw & Hlog & Hout & Hfiles & Hcache).
  assert (enumerated (cli_world context home data w) (length (py_apps w))
          = Some (srv_sources w)) as Hen.
  { unfold enumerated. rewrite Hcache, Hsrv. by destruct (srv_sources w). }
  assert (accepts_everything (cli_world context home data w)) as Hacc'.
  { unfold accepts_everything. rewrite Haccw. apply Hacc. }
  destruct (enable_succeeds _ _ _ _ s 50 Ho Hen Hin Hacc')
    as (w' & Hrun & Hlog' & Hmods' & Hout' & _ & _ & _ & _ & Hfiles').
  exists w'. split.
  - unfold main. unfold bind. rewrite (cli_init_spec _ home data) by done.
    rewrite parse_args_accepts_listed by done. cbn [fst].
    unfold CadmusApplicationCli.run. cbn [args backend_app cmd source].
    exact Hrun.
  - rewrite Hfiles', Hfiles, Hlog', Hmods', Hout', Hlog, Hmods, Hout, Hcache.
    split; [apply lookup_insert_eq|].
    cbn [cadmus_lib_path started_backend].
    change (Z.max 50 50) with 50%Z. change (fmt_d 50) with "50".
    split; [|done]. rewrite <- app_assoc.
    destruct (srv_sources w); [by apply elem_of_nil in Hin|done].
Qed.

Lemma main_enable_from_first_start_witness :
  ∃ w',
    main demo_context ["enable"; "mic0"] boot_world = (Returned tt, w') ∧
    srv_log w' =
      SourceList
        :: (load_call <$> session_modules "mic0" 50
                            "/home/u/.cache/cadmus/librnnoise_ladspa.so") ∧
    stdout w' = ["Set suppression level to 50"].
Proof.
  destruct (main_enable_from_first_start demo_context "/home/u" "RNNOISE-1"
              boot_world "mic0" boot_world_can_start)
    as (w' & Hrun & _ & Hlog & _ & Hout).
  - intros mods n a. reflexivity.
  - apply list_elem_of_here.
  - reflexivity.
  - reflexivity.
  - exists w'. split; [exact Hrun|]. split; [exact Hlog | exact Hout].
Defined.

(** X12: [disable] from the command line.  On a machine where the program
    can start, the command line [disable] first starts up like every other
    (the plugin is copied, the server is asked for its devices) and then
    sends the four unload lines, whatever is loaded: afterwards the server
    holds no module of the four types, and every other module it had. *)
Theorem main_disable_unloads_after_startup
    (context : ApplicationContext) (home data : string) (w : World) :
  can_start context home data w →
  ∃ w',
    main context ["disable"] w = (Returned tt, w') ∧
    fs_files w' !! plugin_path home = Some data ∧
    srv_log w' =
      srv_log w
      ++ SourceList :: CliConnect :: (CliWrite <$> unload_lines) ++ [CliClose] ∧
    srv_modules w' = unload_session (srv_modules w) ∧
    session_free (srv_modules w') ∧
    stdout w' = stdout w.
Proof.
  intros Hstart.
  destruct (cli_world_facts context home data w)
    as (_ & _ & Hmods & _ & Hlog & Hout & Hfiles & _).
  eexists. split.
  - unfold main. unfold bind. rewrite (cli_init_spec _ home data) by done.
    change (parse_args (name <$> srv_sources w) ["disable"]
              (cli_world context home data w)).1
      with (Returned {| cmd := Some "disable"; source := None |}).
    cbn iota. unfold CadmusApplicationCli.run. cbn [args backend_app cmd].
    change (bool_decide (Some "disable" = Some "sources")) with false.
    change (bool_decide (Some "disable" = Some "enable")) with false.
    change (bool_decide (Some "disable" = Some "disable")) with true.
    cbn iota. apply disable_spec.
  - world_fields. rewrite Hfiles, Hlog, Hmods, Hout, <- app_assoc.
    split; [apply lookup_insert_eq|]. split; [done|]. split; [done|].
    split; [apply unload_session_types_gone|done].
Qed.

Lemma main_disable_unloads_after_startup_witness :
  ∃ w',
    main demo_context ["disable"]
      (set_srv_modules [("module-loopback", "source=a sink=b");
                        ("module-alsa-card", "device_id=0")] boot_world)
      = (Returned tt, w') ∧
    srv_modules w' = [("module-alsa-card", "device_id=0")].
Proof.
  destruct (main_disable_unloads_after_startup demo_context "/home/u" "RNNOISE-1"
              (set_srv_modules [("module-loopback", "source=a sink=b");
                                ("module-alsa-card", "device_id=0")] boot_world)
              boot_world_can_start)
    as (w' & Hrun & _ & _ & Hmods & _).
  exists w'. split; [exact Hrun|]. rewrite Hmods. reflexivity.
Defined.

(** X13: without a device on the server, [enable] cannot be used from the
    command line.  The choices of the parser are then empty, so every
    command line that begins with [enable] ends in argparse's exit, after
    the start-up, and no module is loaded. *)
Theorem main_enable_needs_a_device
    (context : ApplicationContext) (home data : string) (w : World)
    (rest : list string) :
  can_start context home data w →
  srv_sources w = [] →
  ∃ code w',
    main context ("enable" :: rest) w = (Raised (SystemExit code), w') ∧
    srv_log w' = srv_log w ++ [SourceList] ∧
    srv_modules w' = srv_modules w.
Proof.
  intros Hstart Hnone.
  destruct (cli_world_facts context home data w)
    as (_ & _ & Hmods & _ & Hlog & _).
  destruct (parse_args_enable_needs_choices rest (cli_world context home data w))
    as [code Hparse].
  exists code, (cli_world context home data w). split; [|done].
  unfold main. unfold bind. rewrite (cli_init_spec _ home data) by done.
  rewrite Hnone. cbn [fmap list_fmap]. by rewrite Hparse.
Qed.

Lemma main_enable_needs_a_device_witness :
  ∃ code w',
    main demo_context ["enable"; "mic0"] (set_srv_sources [] boot_world)
      = (Raised (SystemExit code), w') ∧
    srv_modules w' = [].
Proof.
  destruct (main_enable_needs_a_device demo_context "/home/u" "RNNOISE-1"
              (set_srv_sources [] boot_world) ["mic0"] boot_world_can_start)
    as (code & w' & Hrun & _ & Hmods); [reflexivity|].
  exists code, w'. split; [exact Hrun | exact Hmods].
Defined.

(** ** Listing the devices *)

Lemma for_each_print_sources items : ∀ w ds,
  mapM (λ r, py_sources w !! r) items = Some ds →
  for_each items (λ r,
    src <- get_source r ;;
    print "-----------------------------" ;;;
    print ("name = " +:+ name src) ;;;
    print ("description = " +:+ description src)) w
  = (Returned tt, set_stdout (stdout w ++ concat (source_block <$> ds)) w).
Proof.
  induction items as [|r items IH]; intros w ds Hds.
  - injection Hds as <-. cbn [for_each fmap list_fmap concat]. unfold ret.
    rewrite app_nil_r. by destruct w.
  - cbn [mapM] in Hds.
    destruct (py_sources w !! r) as [s|] eqn:Hr; [|done].
    destruct (mapM (λ r0, py_sources w !! r0) items) as [ds'|] eqn:Hds'; [|done].
    injection Hds as <-.
    cbn [for_each]. unfold bind at 1. unfold bind at 1. unfold get_source.
    rewrite Hr. unfold print, modify. repeat (unfold bind at 1).
    rewrite (IH _ ds') by exact Hds'.
    world_fields. cbn [fmap list_fmap concat source_block].
    rewrite <- !app_assoc. cbn [app]. by destruct w.
Qed.

(** X14: [print_sources] prints the header line and then, for every device
    the enumerator returns and in the enumerator's order, a rule, the name
    and the description; with no device it prints the header only.  It asks
    the server only when the cache is empty and never changes the module
    graph. *)
Theorem print_sources_lists_the_devices
    (w : World) (cli : CadmusApplicationCli_obj) (ds : list PulseSourceInfo) :
  enumerated w (backend_app cli) = Some ds →
  ∃ w',
    CadmusApplicationCli.print_sources cli w = (Returned tt, w') ∧
    stdout w' = stdout w ++ "Current sources:" :: concat (source_block <$> ds) ∧
    srv_log w' =
      srv_log w
      ++ match cache_view w (backend_app cli) with
         | Some [] => [SourceList]
         | _ => []
         end ∧
    srv_modules w' = srv_modules w.
Proof.
  intros Hen. unfold CadmusApplicationCli.print_sources.
  unfold bind at 1. unfold print at 1. unfold modify.
  set (w0 := set_stdout (stdout w ++ ["Current sources:"]) w).
  assert (cache_view w0 (backend_app cli) = cache_view w (backend_app cli))
    as Hsame by reflexivity.
  unfold enumerated in Hen.
  destruct (cache_view w (backend_app cli)) as [[|d cached]|] eqn:Hc; [| |done].
  - injection Hen as <-.
    destruct (sources_list_miss w0 _ Hsame) as (o & Ho & _ & Hrun & Hview & _).
    destruct (list_view_inv _ _ _ Hview) as (items & Hl & Hds).
    unfold bind at 1. rewrite Hrun.
    unfold bind at 1. unfold list_items. rewrite Hl.
    rewrite (for_each_print_sources _ _ _ Hds).
    eexists. split; [reflexivity|].
    unfold query_world, w0. world_fields. rewrite <- app_assoc. by repeat split.
  - injection Hen as <-.
    destruct (sources_list_hit w0 _ (d :: cached) Hsame) as (items & Hrun & Hview & _);
      [done|].
    destruct (list_view_inv _ _ _ Hview) as (items' & Hl & Hds).
    unfold bind at 1. rewrite Hrun.
    unfold bind at 1. unfold list_items. rewrite Hl.
    rewrite (for_each_print_sources _ _ _ Hds).
    eexists. split; [reflexivity|].
    unfold w0. world_fields. rewrite <- app_assoc, app_nil_r. by repeat split.
Qed.

Lemma print_sources_lists_the_devices_witness :
  ∃ w',
    CadmusApplicationCli.print_sources
      {| backend_app := 0; args := {| cmd := Some "sources"; source := None |} |}
      two_mics_world = (Returned tt, w') ∧
    stdout w' =
      [ "Current sources:";
        "-----------------------------";
        "name = mic0"; "description = Built-in Mic";
        "-----------------------------";
        "name = usb1"; "description = USB Headset" ].
Proof.
  destruct (print_sources_lists_the_devices two_mics_world
              {| backend_app := 0; args := {| cmd := Some "sources"; source := None |} |}
              [mic0; usb1])
    as (w' & Hrun & Hout & _); [vm_compute; reflexivity|].
  exists w'. split; [exact Hrun|]. rewrite Hout. vm_compute. reflexivity.
Defined.

(** ** The argument strings, as the server reads them *)

Lemma until_space_app s rest :
  no_space s = true → until_space (s +:+ String " " rest) = s.
Proof.
  induction s as [|c s IH]; intros H.
  - reflexivity.
  - cbn [no_space] in H. apply andb_true_iff in H as [Hc Hs].
    rewrite string_app_cons. cbn [until_space].
    apply negb_true_iff in Hc. rewrite Hc. by rewrite IH.
Qed.

Lemma arg_value_from_skip_word key s rest :
  no_space s = true →
  arg_value_from key false (s +:+ String " " rest) = arg_value_from key true rest.
Proof.
  induction s as [|c s IH]; intros H.
  - reflexivity.
  - cbn [no_space] in H. apply andb_true_iff in H as [Hc Hs].
    rewrite string_app_cons. cbn [arg_value_from].
    apply negb_true_iff in Hc. rewrite Hc. by apply IH.
Qed.

(** X15: for a device name without a space, the loopback's argument string
    says what the program means: read as space-separated [key=value] words
    it gives [latency_msec=1], [source=<the name>], [sink=mic_raw_in] and
    [channels=1].  The name is pasted in unquoted, so the hypothesis is
    needed: a name with a space can supply a [sink] of its own.  Likewise a
    plugin path without a space is what the filter sink's [plugin] says. *)
Theorem argument_strings_without_spaces (mic_name cadmus_lib_path : string)
    (control_level : Z) :
  (no_space mic_name = true →
   arg_value "latency_msec" (CadmusPulseInterface.loopback_args mic_name) = Some "1" ∧
   arg_value "source" (CadmusPulseInterface.loopback_args mic_name) = Some mic_name ∧
   arg_value "sink" (CadmusPulseInterface.loopback_args mic_name) = Some "mic_raw_in" ∧
   arg_value "channels" (CadmusPulseInterface.loopback_args mic_name) = Some "1") ∧
  (no_space cadmus_lib_path = true →
   arg_value "plugin"
     (CadmusPulseInterface.ladspa_sink_args cadmus_lib_path control_level)
   = Some cadmus_lib_path) ∧
  arg_value "sink" (CadmusPulseInterface.loopback_args "mic0 sink=elsewhere")
  = Some "elsewhere".
Proof.
  split; [|split; [|reflexivity]].
  - intros Hmic.
    assert (no_space ("ource=" +:+ mic_name) = true) as Hword by exact Hmic.
    split; [reflexivity|]. split; [|split].
    + change (arg_value "source" (CadmusPulseInterface.loopback_args mic_name))
        with (Some (until_space (mic_name +:+ " sink=mic_raw_in channels=1"))).
      by rewrite until_space_app.
    + change (arg_value "sink" (CadmusPulseInterface.loopback_args mic_name))
        with (arg_value_from "sink" false
                ("ource=" +:+ (mic_name +:+ " sink=mic_raw_in channels=1"))).
      rewrite <- string_app_assoc.
      by rewrite (arg_value_from_skip_word _ _ "sink=mic_raw_in channels=1").
    + change (arg_value "channels" (CadmusPulseInterface.loopback_args mic_name))
        with (arg_value_from "channels" false
                ("ource=" +:+ (mic_name +:+ " sink=mic_raw_in channels=1"))).
      rewrite <- string_app_assoc.
      by rewrite (arg_value_from_skip_word _ _ "sink=mic_raw_in channels=1").
  - intros Hpath.
    change (arg_value "plugin"
              (CadmusPulseInterface.ladspa_sink_args cadmus_lib_path control_level))
      with (Some (until_space
                    (cadmus_lib_path
                     +:+ String " "
                           ("control=" +:+ fmt_d control_level +:+ " "
                            +:+ "sink_properties=" +:+ dquote
                            +:+ "device.description='Cadmus Raw Microphone Redirect'"
                            +:+ dquote)))).
    by rewrite until_space_app.
Qed.

Lemma argument_strings_without_spaces_witness :
  arg_value "source" (CadmusPulseInterface.loopback_args "mic0") = Some "mic0" ∧
  arg_value "sink" (CadmusPulseInterface.loopback_args "mic0") = Some "mic_raw_in" ∧
  arg_value "plugin"
    (CadmusPulseInterface.ladspa_sink_args "/home/u/.cache/cadmus/librnnoise_ladspa.so" 50)
  = Some "/home/u/.cache/cadmus/librnnoise_ladspa.so".
Proof.
  destruct (argument_strings_without_spaces "mic0"
              "/home/u/.cache/cadmus/librnnoise_ladspa.so" 50)
    as (Hloop & Hplugin & _).
  destruct (Hloop eq_refl) as (_ & Hsource & Hsink & _).
  split; [exact Hsource|]. split; [exact Hsink|]. exact (Hplugin eq_refl).
Defined.

(** X16: a refusal of the server reaches the top of the program.  From the
    command line, when the server turns down the [i]-th of the four
    requests, [main] ends in the server's exception; the modules of the
    stages before it stay loaded, nothing is unloaded, and the level is not
    reported on standard output. *)
Theorem main_enable_propagates_refusal
    (context : ApplicationContext) (home data : string) (w : World)
    (s : string) (i : nat) :
  let chain := session_modules s 50 (plugin_path home) in
  can_start context home data w →
  s ∈ (name <$> srv_sources w) →
  is_help s = false →
  option_like s = false →
  first_refused (srv_accepts w) (srv_modules w) chain = Some i →
  ∃ m w',
    chain !! i = Some m ∧
    main context ["enable"; s] w = (Raised (PulseError m.1), w') ∧
    srv_modules w' = srv_modules w ++ take i chain ∧
    srv_log w' = srv_log w ++ SourceList :: (load_call <$> take (S i) chain) ∧
    stdout w' = stdout w.
Proof.
  intros chain Hstart Hin Hhelp Hopt Href. unfold chain in *. clear chain.
  destruct (cli_world_facts context home data w)
    as (Ho & Hsrv & Hmods & Haccw & Hlog & Hout & _ & Hcache).
  assert (enumerated (cli_world context home data w) (length (py_apps w))
          = Some (srv_sources w)) as Hen.
  { unfold enumerated. rewrite Hcache, Hsrv. by destruct (srv_sources w). }
  destruct (enable_listed_device _ _ _ _ s 50 Ho Hen Hin)
    as (w1 & Hrun & Hlog1 & Hmods1 & Hacc1 & Hout1 & _).
  pose proof (first_refused_lt _ _ _ _ Href) as Hlt.
  destruct (lookup_lt_is_Some_2 _ i Hlt) as [m Hm].
  exists m. eexists. split; [exact Hm|]. split.
  - unfold main. unfold bind. rewrite (cli_init_spec _ home data) by done.
    rewrite parse_args_accepts_listed by done. cbn [fst].
    unfold CadmusApplicationCli.run. cbn [args backend_app cmd source].
    change (bool_decide (Some "enable" = Some "sources")) with false.
    change (bool_decide (Some "enable" = Some "enable")) with true. cbn iota.
    rewrite Hrun, load_modules_spec. cbv zeta.
    cbn [cadmus_lib_path started_backend]. change (Z.max 50 50) with 50%Z.
    rewrite Hacc1, Hmods1, Haccw, Hmods, Href.
    by rewrite list_lookup_fmap, Hm.
  - world_fields. rewrite Hlog1, Hout1, Hlog, Hout, Hcache, <- app_assoc.
    split; [done|]. split; [|done].
    destruct (srv_sources w); [by apply elem_of_nil in Hin|].
    by rewrite <- app_assoc.
Qed.

Lemma main_enable_propagates_refusal_witness :
  ∃ w',
    main demo_context ["enable"; "mic0"] (set_srv_accepts refuse_loopback boot_world)
      = (Raised (PulseError "module-loopback"), w') ∧
    length (srv_modules w') = 2%nat ∧
    stdout w' = [].
Proof.
  destruct (main_enable_propagates_refusal demo_context "/home/u" "RNNOISE-1"
              (set_srv_accepts refuse_loopback boot_world) "mic0" 2
              boot_world_can_start)
    as (m & w' & Hm & Hrun & Hmods & _ & Hout);
    [apply list_elem_of_here | reflexivity | reflexivity | reflexivity |].
  injection Hm as <-. exists w'. split; [exact Hrun|].
  split; [rewrite Hmods; reflexivity | exact Hout].
Defined.
